(** * NetconfRUClient (callHome.py): a shallow embedding and its properties

    The client drives a NETCONF session to a radio unit through the
    [ncclient] manager object held in [self.session].  Everything the
    client does is a sequence of calls on that object, prints and appends
    to the response file, so the embedding is a state-and-exception monad
    over a record holding the client, the calls made on the session so
    far, the lines printed and the files written.  The session itself is
    external: it is an oracle that, given the calls made so far and the
    next call, either raises or returns the text of [response.xml]. *)

From Stdlib Require Import String Ascii List ZArith Bool Lia.
From Stdlib Require Import DecimalString.
Import ListNotations.
Local Open Scope string_scope.

(** ** Text *)

Module Text.

(** The double-quote character and the line feed, which the payload
    literals of the source contain. *)
Definition dq : string := String "034"%char EmptyString.
Definition nl : string := String "010"%char EmptyString.

(** [attr k v] is the text [k="v"]. *)
Definition attr (k v : string) : string := k ++ "=" ++ dq ++ v ++ dq.

(** A triple-quoted literal, line by line. *)
Definition lines (ls : list string) : string := String.concat nl ls.

(** Python's [needle in hay] on [str]: substring search. *)
Fixpoint str_in (needle hay : string) : bool :=
  if String.prefix needle hay then true
  else match hay with
       | EmptyString => false
       | String _ rest => str_in needle rest
       end.

(** [str(n)] of a Python [int]. *)
Definition str_of_int (n : Z) : string := NilZero.string_of_int (Z.to_int n).

End Text.
Import Text.

(** ** Python values, exceptions and the session object *)

(** An exception: its class name and [str(e)]. *)
Record Exn := mkExn { exn_class : string; exn_msg : string }.

Definition TypeError (msg : string) : Exn := mkExn "TypeError" msg.
Definition AttributeError (msg : string) : Exn := mkExn "AttributeError" msg.

(** The values the methods return: [None], a [str], a reply object (with
    its [.xml]) and the pair of [retrieve_carrier_status]. *)
Inductive value : Type :=
| PyNone
| PyStr (s : string)
| PyReply (xml : string)
| PyTuple (a b : value).

(** Numeric or textual arguments interpolated in an f-string through
    [str()]; a float is passed as the text of its [str()]. *)
Inductive scalar : Type :=
| SInt (n : Z)
| SText (s : string).

Definition py_str (x : scalar) : string :=
  match x with
  | SInt n => str_of_int n
  | SText s => s
  end.

(** The calls the client makes on [self.session]. *)
Inductive Request : Type :=
| Get (filter : option string)
| GetConfig (source : string)
| EditConfig (target config : string)
| Dispatch (rpc : string)
| TakeNotification (timeout : Z)
| CloseSession.

(** The attribute looked up on [self.session] for each call. *)
Definition method_name (r : Request) : string :=
  match r with
  | Get _ => "get"
  | GetConfig _ => "get_config"
  | EditConfig _ _ => "edit_config"
  | Dispatch _ => "dispatch"
  | TakeNotification _ => "take_notification"
  | CloseSession => "close_session"
  end.

Definition is_edit_config (r : Request) : bool :=
  match r with EditConfig _ _ => true | _ => false end.

(** The manager object.  [reply history r] is what the call [r] does
    after the calls in [history]: it raises, or returns a reply whose
    [.xml] is the text.  [notifications history] is what
    [take_notification] does: it raises, or returns an object whose
    iteration yields the [notification_xml] of some notifications and
    then stops, at its end ([None]) or with an exception ([Some e]); an
    object that is not iterable yields nothing and stops with the
    [TypeError]. *)
Record Session := mkSession {
  reply : list Request -> Request -> Exn + string;
  notifications : list Request -> Exn + (list string * option Exn);
  server_capabilities : list string
}.

Record NetconfRUClient := mkClient {
  host : string;
  port : Z;
  username : string;
  password : string;
  session : option Session;
  response_file : string;
  capabilities_file : string
}.

Definition set_session (c : NetconfRUClient) (s : option Session) : NetconfRUClient :=
  mkClient (host c) (port c) (username c) (password c) s
           (response_file c) (capabilities_file c).

(** [__init__] *)
Definition init (h : string) (p : Z) (u pw rf cf : string) : NetconfRUClient :=
  mkClient h p u pw None rf cf.

(** What the client does to the file system: [open(path, mode)] and
    [file.write(chunk)], in the order done. *)
Inductive FileEvent : Type :=
| Opened (path mode : string)
| Wrote (path chunk : string).

(** The libraries the client calls besides the session: the connection
    factory, the two XML pretty-printers of [xml.dom.minidom], and the
    file system.  [fs_open journal path mode] and
    [fs_write journal path chunk] say whether the operation raises,
    after the file operations in [journal]. *)
Record Env := mkEnv {
  manager_connect : string -> Z -> string -> string -> Exn + Session;
  toprettyxml : string -> Exn + string;
  capabilities_doc : list string -> string;
  fs_open : list FileEvent -> string -> string -> option Exn;
  fs_write : list FileEvent -> string -> string -> option Exn
}.

(** ** The state and the monad *)

Record State := mkState {
  self : NetconfRUClient;
  sent : list Request;
  stdout : list string;
  files : list FileEvent
}.

Inductive Outcome (A : Type) : Type :=
| Returned (a : A)
| Raised (e : Exn).
Arguments Returned {A} a.
Arguments Raised {A} e.

Definition M (A : Type) : Type := State -> Outcome A * State.

Definition ret {A} (a : A) : M A := fun s => (Returned a, s).
Definition raise {A} (e : Exn) : M A := fun s => (Raised e, s).

Definition bind {A B} (m : M A) (k : A -> M B) : M B :=
  fun s => match m s with
           | (Returned a, s') => k a s'
           | (Raised e, s') => (Raised e, s')
           end.

(** [try: body except Exception as e: handler e] *)
Definition try_except {A} (body : M A) (handler : Exn -> M A) : M A :=
  fun s => match body s with
           | (Returned a, s') => (Returned a, s')
           | (Raised e, s') => handler e s'
           end.

Declare Scope py_scope.
Delimit Scope py_scope with py.
Notation "x <- m ;; k" := (bind m (fun x => k))
  (at level 61, m at next level, right associativity) : py_scope.
Notation "m ;; k" := (bind m (fun _ => k))
  (at level 61, right associativity) : py_scope.
Local Open Scope py_scope.

Definition get_self : M NetconfRUClient := fun s => (Returned (self s), s).

Definition put_session (o : option Session) : M unit :=
  fun s => (Returned tt,
            mkState (set_session (self s) o) (sent s) (stdout s) (files s)).

Definition print (line : string) : M unit :=
  fun s => (Returned tt,
            mkState (self s) (sent s) (stdout s ++ [line]) (files s)).

(** A method call on [self.session].  On [None] the attribute lookup
    raises and nothing is sent; otherwise the call is recorded and the
    session answers. *)
Definition call (r : Request) : M string :=
  fun s =>
    match session (self s) with
    | None =>
        (Raised (AttributeError
                   ("'NoneType' object has no attribute '" ++ method_name r ++ "'")),
         s)
    | Some ses =>
        let s' := mkState (self s) (sent s ++ [r]) (stdout s) (files s) in
        match reply ses (sent s) r with
        | inl e => (Raised e, s')
        | inr xml => (Returned xml, s')
        end
    end.

(** [if not self.session] *)
Definition connected (s : State) : bool :=
  match session (self s) with Some _ => true | None => false end.

Definition no_session_msg : string :=
  "No active session to the RU. Please connect first.".

(** The guard that opens most methods: print and return [v] when there is
    no session, else run [body]. *)
Definition guarded (v : value) (body : M value) : M value :=
  fun s => if connected s then body s
           else (print no_session_msg ;; ret v) s.

(** ** ElementTree, as far as [reset_supervision_watchdog] uses it *)

Module ET.

#[warnings="-register-all"] Inductive Element : Type :=
| Elem (tag : string) (attrib : list (string * string))
       (text : option string) (children : list Element).

Definition Element_ (tag : string) (attrib : list (string * string)) : Element :=
  Elem tag attrib None [].

Definition set_text (e : Element) (t : string) : Element :=
  match e with Elem tag a _ cs => Elem tag a (Some t) cs end.

(** [SubElement(parent, ...)] appends the new element to [parent]. *)
Definition append (parent child : Element) : Element :=
  match parent with Elem tag a t cs => Elem tag a t (cs ++ [child]) end.

Definition text_of (e : Element) : option string :=
  match e with Elem _ _ t _ => t end.

Definition tag_of (e : Element) : string :=
  match e with Elem tag _ _ _ => tag end.

Definition children_of (e : Element) : list Element :=
  match e with Elem _ _ _ cs => cs end.

(** [parent.find(tag)]: the first child with that tag. *)
Definition find (tag : string) (e : Element) : option Element :=
  List.find (fun c => String.eqb (tag_of c) tag) (children_of e).

(** The serializer's escaping of character data and of attribute values. *)
Fixpoint escape_cdata (s : string) : string :=
  match s with
  | EmptyString => EmptyString
  | String c rest =>
      (if Ascii.eqb c "&" then "&amp;"
       else if Ascii.eqb c "<" then "&lt;"
       else if Ascii.eqb c ">" then "&gt;"
       else String c EmptyString) ++ escape_cdata rest
  end.

Fixpoint escape_attrib (s : string) : string :=
  match s with
  | EmptyString => EmptyString
  | String c rest =>
      (if Ascii.eqb c "&" then "&amp;"
       else if Ascii.eqb c "<" then "&lt;"
       else if Ascii.eqb c ">" then "&gt;"
       else if Ascii.eqb c "034" then "&quot;"
       else if Ascii.eqb c "013" then "&#13;"
       else if Ascii.eqb c "010" then "&#10;"
       else if Ascii.eqb c "009" then "&#09;"
       else String c EmptyString) ++ escape_attrib rest
  end.

Definition attribs (a : list (string * string)) : string :=
  String.concat EmptyString
    (map (fun kv => " " ++ attr (fst kv) (escape_attrib (snd kv))) a).

(** The serializer's test [if text or len(elem)]: an element with no
    text, or with the empty text, and no children is written short. *)
Definition is_short (t : option string) (cs : list Element) : bool :=
  match t, cs with
  | None, [] => true
  | Some EmptyString, [] => true
  | _, _ => false
  end.

(** [ET.tostring(e, encoding="utf-8", method="xml").decode('utf-8')]:
    no XML declaration for utf-8, attributes in insertion order, an
    element without text and children is written [<tag />]. *)
Fixpoint tostring (e : Element) : string :=
  match e with
  | Elem tag a t cs =>
      if is_short t cs then "<" ++ tag ++ attribs a ++ " />"
      else
        "<" ++ tag ++ attribs a ++ ">"
        ++ match t with Some x => escape_cdata x | None => EmptyString end
        ++ String.concat EmptyString (map tostring cs)
        ++ "</" ++ tag ++ ">"
  end.

End ET.

(** ** The payload literals of the source *)

Definition ns_netconf : string := "urn:ietf:params:xml:ns:netconf:base:1.0".
Definition ns_supervision : string := "urn:o-ran:supervision:1.0".
Definition ns_notification : string := "urn:ietf:params:xml:ns:netmod:notification".
Definition ns_uplane : string := "urn:o-ran:uplane-conf:1.0".
Definition ns_mplane : string := "urn:o-ran:mplane-interfaces:1.0".
Definition ns_hardware : string := "urn:ietf:params:xml:ns:yang:ietf-hardware".

(** [f"<name>{name}</name>"] *)
Definition name_tag (name : string) : string := "<name>" ++ name ++ "</name>".

(** [f"<active>{state}</active>"], for the two literals of the source. *)
Definition active_tag (state : string) : string := "<active>" ++ state ++ "</active>".

Definition supervision_filter : string :=
  lines [ EmptyString;
          "        <filter " ++ attr "xmlns" ns_netconf ++ ">";
          "          <supervision-status " ++ attr "xmlns" ns_supervision ++ "/>";
          "        </filter>";
          "        " ].

Definition subscription_rpc : string :=
  lines [ EmptyString;
          "            <rpc " ++ attr "xmlns" ns_netconf ++ " " ++ attr "message-id" "101" ++ ">";
          "                <create-subscription " ++ attr "xmlns" ns_notification ++ ">";
          "                    <stream>NETCONF</stream>";
          "                </create-subscription>";
          "            </rpc>";
          "            " ].

Definition watchdog_reset_element : ET.Element :=
  let rpc := ET.Element_ "rpc" [("xmlns", ns_netconf); ("message-id", "1")] in
  let supervision_reset :=
    ET.Element_ "supervision-watchdog-reset" [("xmlns", ns_supervision)] in
  let notification_interval :=
    ET.set_text (ET.Element_ "supervision-notification-interval" []) "60000" in
  let supervision_reset := ET.append supervision_reset notification_interval in
  let guard_timer_overhead :=
    ET.set_text (ET.Element_ "guard-timer-overhead" []) "5" in
  let supervision_reset := ET.append supervision_reset guard_timer_overhead in
  ET.append rpc supervision_reset.

Definition watchdog_reset_rpc : string := ET.tostring watchdog_reset_element.

Definition streams_filter : string :=
  lines [ EmptyString;
          "        <netconf " ++ attr "xmlns" ns_notification ++ ">";
          "            <streams/>";
          "        </netconf>";
          "        " ].

Definition call_home_payload (ipv4_address port interface_name sub_interface : scalar)
  : string :=
  lines [ EmptyString;
          "        <config " ++ attr "xmlns" ns_netconf ++ ">";
          "        <mplane-info " ++ attr "xmlns" ns_mplane ++ ">";
          "            <m-plane-interfaces>";
          "            <m-plane-sub-interfaces>";
          "                <interface-name>" ++ py_str interface_name ++ "</interface-name>";
          "                <sub-interface>" ++ py_str sub_interface ++ "</sub-interface>";
          "                <client-info>";
          "                <mplane-ipv4-info>";
          "                    <mplane-ipv4>" ++ py_str ipv4_address ++ "</mplane-ipv4>";
          "                    <port>" ++ py_str port ++ "</port>";
          "                </mplane-ipv4-info>";
          "                </client-info>";
          "            </m-plane-sub-interfaces>";
          "            </m-plane-interfaces>";
          "        </mplane-info>";
          "        </config>";
          "        " ].

Definition tx_carriers_filter : string :=
  lines [ EmptyString;
          "        <filter " ++ attr "xmlns" ns_netconf ++ ">";
          "          <user-plane-configuration " ++ attr "xmlns" ns_uplane ++ ">";
          "            <tx-array-carriers/>";
          "          </user-plane-configuration>";
          "        </filter>";
          "        " ].

Definition rx_carriers_filter : string :=
  lines [ EmptyString;
          "        <filter " ++ attr "xmlns" ns_netconf ++ ">";
          "          <user-plane-configuration " ++ attr "xmlns" ns_uplane ++ ">";
          "            <rx-array-carriers/>";
          "          </user-plane-configuration>";
          "        </filter>";
          "        " ].

Definition tx_create_payload
  (name : string)
  (center_of_channel_bandwidth absolute_frequency_center channel_bandwidth gain : scalar)
  : string :=
  lines [ EmptyString;
          "        <config " ++ attr "xmlns" ns_netconf ++ ">";
          "          <user-plane-configuration " ++ attr "xmlns" ns_uplane ++ ">";
          "            <tx-array-carriers>";
          "              " ++ name_tag name;
          "              <center-of-channel-bandwidth>" ++ py_str center_of_channel_bandwidth
            ++ "</center-of-channel-bandwidth>";
          "              <absolute-frequency-center>" ++ py_str absolute_frequency_center
            ++ "</absolute-frequency-center>";
          "              <channel-bandwidth>" ++ py_str channel_bandwidth ++ "</channel-bandwidth>";
          "              <type>NR</type>";
          "              <gain>" ++ py_str gain ++ "</gain>";
          "              <downlink-radio-frame-offset>0</downlink-radio-frame-offset>";
          "              <downlink-sfn-offset>0</downlink-sfn-offset>";
          "            </tx-array-carriers>";
          "          </user-plane-configuration>";
          "        </config>";
          "        " ].

Definition rx_create_payload
  (name : string)
  (center_of_channel_bandwidth absolute_frequency_center channel_bandwidth
     gain_correction n_ta_offset : scalar)
  : string :=
  lines [ EmptyString;
          "        <config " ++ attr "xmlns" ns_netconf ++ ">";
          "          <user-plane-configuration " ++ attr "xmlns" ns_uplane ++ ">";
          "            <rx-array-carriers>";
          "              " ++ name_tag name;
          "              <center-of-channel-bandwidth>" ++ py_str center_of_channel_bandwidth
            ++ "</center-of-channel-bandwidth>";
          "              <absolute-frequency-center>" ++ py_str absolute_frequency_center
            ++ "</absolute-frequency-center>";
          "              <channel-bandwidth>" ++ py_str channel_bandwidth ++ "</channel-bandwidth>";
          "              <type>NR</type>";
          "              <downlink-radio-frame-offset>0</downlink-radio-frame-offset>";
          "              <downlink-sfn-offset>0</downlink-sfn-offset>";
          "              <gain-correction>" ++ py_str gain_correction ++ "</gain-correction>";
          "              <n-ta-offset>" ++ py_str n_ta_offset ++ "</n-ta-offset>";
          "            </rx-array-carriers>";
          "          </user-plane-configuration>";
          "        </config>";
          "        " ].

Definition tx_delete_payload
  (name : string)
  (center_of_channel_bandwidth absolute_frequency_center channel_bandwidth gain : scalar)
  : string :=
  lines [ EmptyString;
          "        <config " ++ attr "xmlns" ns_netconf ++ ">";
          "          <user-plane-configuration " ++ attr "xmlns" ns_uplane ++ ">";
          "            <tx-array-carriers " ++ attr "nc:operation" "delete";
          "              " ++ attr "xmlns:nc" ns_netconf ++ ">";
          "              " ++ name_tag name;
          "              <center-of-channel-bandwidth>" ++ py_str center_of_channel_bandwidth
            ++ "</center-of-channel-bandwidth>";
          "              <absolute-frequency-center>" ++ py_str absolute_frequency_center
            ++ "</absolute-frequency-center>";
          "              <channel-bandwidth>" ++ py_str channel_bandwidth ++ "</channel-bandwidth>";
          "              <type>NR</type>";
          "              <gain>" ++ py_str gain ++ "</gain>";
          "              <downlink-radio-frame-offset>0</downlink-radio-frame-offset>";
          "              <downlink-sfn-offset>0</downlink-sfn-offset>";
          "            </tx-array-carriers>";
          "          </user-plane-configuration>";
          "        </config>";
          "        " ].

Definition rx_delete_payload
  (name : string)
  (center_of_channel_bandwidth absolute_frequency_center channel_bandwidth
     gain_correction n_ta_offset : scalar)
  : string :=
  lines [ EmptyString;
          "        <config " ++ attr "xmlns" ns_netconf ++ ">";
          "          <user-plane-configuration " ++ attr "xmlns" ns_uplane ++ ">";
          "            <rx-array-carriers " ++ attr "nc:operation" "delete";
          "              " ++ attr "xmlns:nc" ns_netconf ++ ">";
          "              " ++ name_tag name;
          "              <center-of-channel-bandwidth>" ++ py_str center_of_channel_bandwidth
            ++ "</center-of-channel-bandwidth>";
          "              <absolute-frequency-center>" ++ py_str absolute_frequency_center
            ++ "</absolute-frequency-center>";
          "              <channel-bandwidth>" ++ py_str channel_bandwidth ++ "</channel-bandwidth>";
          "              <type>NR</type>";
          "              <downlink-radio-frame-offset>0</downlink-radio-frame-offset>";
          "              <downlink-sfn-offset>0</downlink-sfn-offset>";
          "              <gain-correction>" ++ py_str gain_correction ++ "</gain-correction>";
          "              <n-ta-offset>" ++ py_str n_ta_offset ++ "</n-ta-offset>";
          "              " ++ active_tag "INACTIVE";
          "            </rx-array-carriers>";
          "          </user-plane-configuration>";
          "        </config>";
          "        " ].

Definition status_filter (tx_name rx_name : string) : string :=
  lines [ EmptyString;
          "        <filter " ++ attr "xmlns" ns_netconf ++ ">";
          "          <user-plane-configuration " ++ attr "xmlns" ns_uplane ++ ">";
          "            <tx-array-carriers>";
          "              " ++ name_tag tx_name;
          "              <active/>";
          "            </tx-array-carriers>";
          "            <rx-array-carriers>";
          "              " ++ name_tag rx_name;
          "              <active/>";
          "            </rx-array-carriers>";
          "          </user-plane-configuration>";
          "        </filter>";
          "        " ].

(** The combined payload of [activate_carriers] ([state] = ACTIVE) and
    of [deactivate_carriers] ([state] = INACTIVE): the two literals of
    the source differ in that word only. *)
Definition activation_payload (state tx_name rx_name : string) : string :=
  lines [ EmptyString;
          "        <config " ++ attr "xmlns" ns_netconf ++ ">";
          "          <user-plane-configuration " ++ attr "xmlns" ns_uplane ++ ">";
          "            <tx-array-carriers>";
          "              " ++ name_tag tx_name;
          "              " ++ active_tag state;
          "            </tx-array-carriers>";
          "            <rx-array-carriers>";
          "              " ++ name_tag rx_name;
          "              " ++ active_tag state;
          "            </rx-array-carriers>";
          "          </user-plane-configuration>";
          "        </config>";
          "        " ].

Definition ru_states_filter : string :=
  lines [ EmptyString;
          "        <filter " ++ attr "xmlns" ns_netconf ++ ">";
          "          <hardware " ++ attr "xmlns" ns_hardware ++ ">";
          "            <component>";
          "              <name>benetel_RU</name>";
          "              <state/>";
          "            </component>";
          "          </hardware>";
          "        </filter>";
          "        " ].

(** ** Python operators on values *)

Fixpoint value_eqb (a b : value) : bool :=
  match a, b with
  | PyNone, PyNone => true
  | PyStr x, PyStr y => String.eqb x y
  | PyReply x, PyReply y => String.eqb x y
  | PyTuple a1 a2, PyTuple b1 b2 => value_eqb a1 b1 && value_eqb a2 b2
  | _, _ => false
  end.

(** [needle in hay] for a [str] needle: substring search in a [str],
    membership in a tuple, and a [TypeError] on [None] and on a reply
    object, neither of which is a container. *)
Definition py_in (needle : string) (hay : value) : M bool :=
  match hay with
  | PyStr h => ret (str_in needle h)
  | PyTuple a b => ret (value_eqb (PyStr needle) a || value_eqb (PyStr needle) b)
  | PyNone => raise (TypeError "argument of type 'NoneType' is not iterable")
  | PyReply _ => raise (TypeError "argument of type 'RPCReply' is not iterable")
  end.

(** [v == "literal"] *)
Definition py_eq_str (v : value) (lit : string) : bool := value_eqb v (PyStr lit).

(** ** The methods of [NetconfRUClient] *)

Section Methods.

Variable env : Env.

(** [for x in xs: body x] *)
Fixpoint for_each {A} (xs : list A) (body : A -> M unit) : M unit :=
  match xs with
  | [] => ret tt
  | x :: rest => body x ;; for_each rest body
  end.

Definition connect : M value :=
  try_except
    (c <- get_self ;;
     match manager_connect env (host c) (port c) (username c) (password c) with
     | inl e => raise e
     | inr ses =>
         put_session (Some ses) ;;
         print ("Successfully connected to RU at " ++ host c) ;;
         ret PyNone
     end)
    (fun e =>
       print ("Failed to connect to RU: " ++ exn_msg e) ;;
       put_session None ;;
       ret PyNone).

(** [open(path, mode)]: raises when the file system says so, else is
    recorded. *)
Definition open_file (path mode : string) : M unit :=
  fun s =>
    match fs_open env (files s) path mode with
    | Some e => (Raised e, s)
    | None =>
        (Returned tt,
         mkState (self s) (sent s) (stdout s) (files s ++ [Opened path mode]))
    end.

(** [file.write(chunk)] on the file opened at [path]. *)
Definition write_file (path chunk : string) : M unit :=
  fun s =>
    match fs_write env (files s) path chunk with
    | Some e => (Raised e, s)
    | None =>
        (Returned tt,
         mkState (self s) (sent s) (stdout s) (files s ++ [Wrote path chunk]))
    end.

(** The reply is parsed and pretty-printed before the file is opened;
    a failure of the parse, of the open or of a write takes the
    [except] branch. *)
Definition save_to_file (xml_data message : string) : M unit :=
  try_except
    (match toprettyxml env xml_data with
     | inl e => raise e
     | inr pretty_xml =>
         c <- get_self ;;
         open_file (response_file c) "a" ;;
         (if String.eqb message EmptyString then ret tt
          else write_file (response_file c) (nl ++ "<!-- " ++ message ++ " -->" ++ nl)) ;;
         write_file (response_file c) pretty_xml ;;
         write_file (response_file c) nl ;;
         print ("Response saved to " ++ response_file c)
     end)
    (fun e => print ("Failed to save XML response: " ++ exn_msg e)).

(** The document is built before the file is opened; the open and the
    write are outside any [try], so their exceptions reach the caller. *)
Definition save_capabilities : M value :=
  guarded PyNone
    (c <- get_self ;;
     match session c with
     | None => ret PyNone
     | Some ses =>
         open_file (capabilities_file c) "w" ;;
         write_file (capabilities_file c) (capabilities_doc env (server_capabilities ses)) ;;
         print ("Capabilities saved to " ++ capabilities_file c) ;;
         ret PyNone
     end).

Definition check_supervision_status : M value :=
  guarded PyNone
    (try_except
       (xml_str <- call (Get (Some supervision_filter)) ;;
        save_to_file xml_str "Supervision Status Retrieval" ;;
        if str_in "<supervision-status>unsupervised</supervision-status>" xml_str then
          (print "Current supervision status: UNSUPERVISED" ;;
           ret (PyStr "unsupervised"))
        else if str_in "<supervision-status>supervised</supervision-status>" xml_str then
          (print "Current supervision status: SUPERVISED" ;;
           ret (PyStr "supervised"))
        else
          (print "Supervision status not found in the response." ;;
           ret (PyStr "unsupervised")))
       (fun e =>
          print ("Failed to retrieve supervision status: " ++ exn_msg e) ;;
          ret PyNone)).

(** [to_ele] parses the text into an element; the element is kept as its
    text, which for the literals of the source is well-formed. *)
Definition to_ele (xml : string) : string := xml.

Definition subscribe_to_netconf_notifications : M value :=
  try_except
    (let rpc_element := to_ele subscription_rpc in
     response <- call (Dispatch rpc_element) ;;
     print "Subscribed to the supervision notification stream successfully." ;;
     save_to_file response "Supervision Mode entered" ;;
     ret (PyReply response))
    (fun e => print ("Failed to subscribe: " ++ exn_msg e) ;; ret PyNone).

Definition reset_supervision_watchdog : M value :=
  guarded PyNone
    (try_except
       (let rpc_element := to_ele watchdog_reset_rpc in
        response <- call (Dispatch rpc_element) ;;
        print "Supervision watchdog reset successfully." ;;
        save_to_file response "Supervision Watchdog Reset" ;;
        ret (PyReply response))
       (fun e =>
          print ("Failed to reset supervision watchdog: " ++ exn_msg e) ;;
          ret PyNone)).

Definition get_available_streams : M value :=
  try_except
    (response <- call (Get (Some (to_ele streams_filter))) ;;
     save_to_file response "Available Notification Streams" ;;
     ret PyNone)
    (fun e =>
       print ("Error retrieving notification streams: " ++ exn_msg e) ;;
       ret PyNone).

(** [self.session.take_notification(timeout=10)]: what the iteration
    over its result will yield, and how it will stop. *)
Definition take_notification (timeout : Z) : M (list string * option Exn) :=
  fun s =>
    match session (self s) with
    | None =>
        (Raised (AttributeError
                   "'NoneType' object has no attribute 'take_notification'"), s)
    | Some ses =>
        let s' := mkState (self s) (sent s ++ [TakeNotification timeout])
                          (stdout s) (files s) in
        match notifications ses (sent s) with
        | inl e => (Raised e, s')
        | inr iteration => (Returned iteration, s')
        end
    end.

(** The end of a [for] loop: the iterator's exception, if it stopped
    with one. *)
Definition stop_iteration (stop : option Exn) : M unit :=
  match stop with
  | Some e => raise e
  | None => ret tt
  end.

Definition receive_notifications : M value :=
  guarded PyNone
    (print "Waiting for notifications..." ;;
     try_except
       (iteration <- take_notification 10 ;;
        for_each (fst iteration)
          (fun notification_xml =>
             print ("Received Notification: " ++ notification_xml) ;;
             save_to_file notification_xml "Supervision Notification Received") ;;
        stop_iteration (snd iteration) ;;
        ret PyNone)
       (fun e =>
          print ("Failed to receive notifications: " ++ exn_msg e) ;;
          ret PyNone)).

Definition default_interface_name : scalar := SText "MPLANE-INTERFACE".
Definition default_sub_interface : scalar := SText "10".

Definition configure_call_home
  (ipv4_address port interface_name sub_interface : scalar) : M value :=
  guarded PyNone
    (let config_payload :=
       call_home_payload ipv4_address port interface_name sub_interface in
     try_except
       (response <- call (EditConfig "running" config_payload) ;;
        print ("Call Home configuration applied for " ++ py_str ipv4_address
               ++ ":" ++ py_str port) ;;
        save_to_file response "Call Home Configuration Response" ;;
        ret (PyReply response))
       (fun e =>
          print ("Failed to configure Call Home: " ++ exn_msg e) ;;
          ret PyNone)).

Definition retrieve_tx_array_carrier_info : M value :=
  guarded PyNone
    (try_except
       (xml_str <- call (Get (Some tx_carriers_filter)) ;;
        save_to_file xml_str "TX Array Carrier Information" ;;
        ret (PyStr xml_str))
       (fun e =>
          print ("Failed to retrieve TX array carrier information: " ++ exn_msg e) ;;
          ret PyNone)).

Definition retrieve_rx_array_carrier_info : M value :=
  guarded PyNone
    (try_except
       (xml_str <- call (Get (Some rx_carriers_filter)) ;;
        save_to_file xml_str "RX Array Carrier Information" ;;
        ret (PyStr xml_str))
       (fun e =>
          print ("Failed to retrieve RX array carrier information: " ++ exn_msg e) ;;
          ret PyNone)).

Definition configure_tx_array_carrier
  (name : string)
  (center_of_channel_bandwidth absolute_frequency_center channel_bandwidth gain : scalar)
  : M value :=
  guarded PyNone
    (tx_info <- retrieve_tx_array_carrier_info ;;
     present <- py_in (name_tag name) tx_info ;;
     if (present : bool) then
       (print ("TX Array Carrier '" ++ name ++ "' already exists, skipping configuration.") ;;
        ret PyNone)
     else
       let config_payload :=
         tx_create_payload name center_of_channel_bandwidth absolute_frequency_center
                           channel_bandwidth gain in
       try_except
         (response <- call (EditConfig "running" config_payload) ;;
          print ("TX Array Carrier '" ++ name ++ "' configured successfully.") ;;
          save_to_file response "TX Array Carrier Configuration" ;;
          ret (PyReply response))
         (fun e =>
            print ("Failed to configure TX array carrier: " ++ exn_msg e) ;;
            ret PyNone)).

Definition configure_rx_array_carrier
  (name : string)
  (center_of_channel_bandwidth absolute_frequency_center channel_bandwidth
     gain_correction n_ta_offset : scalar)
  : M value :=
  guarded PyNone
    (rx_info <- retrieve_rx_array_carrier_info ;;
     present <- py_in (name_tag name) rx_info ;;
     if (present : bool) then
       (print ("RX Array Carrier '" ++ name ++ "' already exists, skipping configuration.") ;;
        ret PyNone)
     else
       let config_payload :=
         rx_create_payload name center_of_channel_bandwidth absolute_frequency_center
                           channel_bandwidth gain_correction n_ta_offset in
       try_except
         (response <- call (EditConfig "running" config_payload) ;;
          print ("RX Array Carrier '" ++ name ++ "' configured successfully.") ;;
          save_to_file response "RX Array Carrier Configuration" ;;
          ret (PyReply response))
         (fun e =>
            print ("Failed to configure RX array carrier: " ++ exn_msg e) ;;
            ret PyNone)).

Definition delete_tx_array_carrier
  (name : string)
  (center_of_channel_bandwidth absolute_frequency_center channel_bandwidth gain : scalar)
  : M value :=
  guarded PyNone
    (let config_payload :=
       tx_delete_payload name center_of_channel_bandwidth absolute_frequency_center
                         channel_bandwidth gain in
     try_except
       (response <- call (EditConfig "running" config_payload) ;;
        print ("TX Array Carrier '" ++ name ++ "' deleted successfully.") ;;
        save_to_file response "TX Array Carrier Deletion" ;;
        ret (PyReply response))
       (fun e =>
          print ("Failed to delete TX array carrier: " ++ exn_msg e) ;;
          ret PyNone)).

Definition delete_rx_array_carrier
  (name : string)
  (center_of_channel_bandwidth absolute_frequency_center channel_bandwidth
     gain_correction n_ta_offset : scalar)
  : M value :=
  guarded PyNone
    (let config_payload :=
       rx_delete_payload name center_of_channel_bandwidth absolute_frequency_center
                         channel_bandwidth gain_correction n_ta_offset in
     try_except
       (response <- call (EditConfig "running" config_payload) ;;
        print ("RX Array Carrier '" ++ name ++ "' deleted successfully.") ;;
        save_to_file response "RX Array Carrier Deletion" ;;
        ret (PyReply response))
       (fun e =>
          print ("Failed to delete RX array carrier: " ++ exn_msg e) ;;
          ret PyNone)).

Definition get_running_config : M value :=
  guarded PyNone
    (try_except
       (response <- call (GetConfig "running") ;;
        print "Running configuration retrieved successfully." ;;
        save_to_file response "Running Configuration" ;;
        ret (PyStr response))
       (fun e =>
          print ("Failed to retrieve running configuration: " ++ exn_msg e) ;;
          ret PyNone)).

Definition retrieve_carrier_status (tx_name rx_name : string) : M value :=
  guarded (PyTuple PyNone PyNone)
    (let filter_payload := status_filter tx_name rx_name in
     try_except
       (xml_str <- call (Get (Some filter_payload)) ;;
        save_to_file xml_str "Carrier Status Retrieval" ;;
        let tx_active :=
          if str_in (name_tag tx_name) xml_str && str_in (active_tag "ACTIVE") xml_str
          then "ACTIVE" else "INACTIVE" in
        let rx_active :=
          if str_in (name_tag rx_name) xml_str && str_in (active_tag "ACTIVE") xml_str
          then "ACTIVE" else "INACTIVE" in
        print ("Current status - TX: " ++ tx_active ++ ", RX: " ++ rx_active) ;;
        ret (PyTuple (PyStr tx_active) (PyStr rx_active)))
       (fun e =>
          print ("Failed to retrieve carrier status: " ++ exn_msg e) ;;
          ret (PyTuple PyNone PyNone))).

(** [tx_status, rx_status = ...]: unpacking the pair. *)
Definition unpack2 (v : value) : M (value * value) :=
  match v with
  | PyTuple a b => ret (a, b)
  | _ => raise (TypeError "cannot unpack non-iterable object")
  end.

Definition activate_carriers (tx_name rx_name : string) : M value :=
  guarded PyNone
    (status <- retrieve_carrier_status tx_name rx_name ;;
     p <- unpack2 status ;;
     let tx_status := fst p in
     let rx_status := snd p in
     if py_eq_str tx_status "ACTIVE" && py_eq_str rx_status "ACTIVE" then
       (print ("Both TX (" ++ tx_name ++ ") and RX (" ++ rx_name
               ++ ") array carriers are already ACTIVE.") ;;
        ret PyNone)
     else
       let config_payload := activation_payload "ACTIVE" tx_name rx_name in
       try_except
         (response <- call (EditConfig "running" config_payload) ;;
          print ("TX Array Carrier '" ++ tx_name ++ "' and RX Array Carrier '"
                 ++ rx_name ++ "' activated successfully.") ;;
          save_to_file response "Carriers Activation" ;;
          ret (PyReply response))
         (fun e =>
            print ("Failed to activate carriers: " ++ exn_msg e) ;;
            ret PyNone)).

Definition deactivate_carriers (tx_name rx_name : string) : M value :=
  guarded PyNone
    (status <- retrieve_carrier_status tx_name rx_name ;;
     p <- unpack2 status ;;
     let tx_status := fst p in
     let rx_status := snd p in
     if py_eq_str tx_status "INACTIVE" && py_eq_str rx_status "INACTIVE" then
       (print ("Both TX (" ++ tx_name ++ ") and RX (" ++ rx_name
               ++ ") array carriers are already INACTIVE.") ;;
        ret PyNone)
     else
       let config_payload := activation_payload "INACTIVE" tx_name rx_name in
       try_except
         (response <- call (EditConfig "running" config_payload) ;;
          print ("TX Array Carrier '" ++ tx_name ++ "' and RX Array Carrier '"
                 ++ rx_name ++ "' deactivated successfully.") ;;
          save_to_file response "Carriers Deactivation" ;;
          ret (PyReply response))
         (fun e =>
            print ("Failed to deactivate carriers: " ++ exn_msg e) ;;
            ret PyNone)).

Definition retrieve_ru_states : M value :=
  guarded PyNone
    (try_except
       (response <- call (Get (Some ru_states_filter)) ;;
        print "RU states retrieved successfully." ;;
        save_to_file response "RU States Response" ;;
        ret (PyStr response))
       (fun e =>
          print ("Failed to retrieve RU states: " ++ exn_msg e) ;;
          ret PyNone)).

Definition get_all_state_data : M value :=
  try_except
    (response <- call (Get None) ;;
     save_to_file response "All RU states" ;;
     ret PyNone)
    (fun e =>
       print ("Error retrieving state data: " ++ exn_msg e) ;;
       ret PyNone).

Definition close_connection : M value :=
  fun s =>
    if connected s then
      (call CloseSession ;; print "NETCONF session closed." ;; ret PyNone) s
    else
      (print "No active session to close." ;; ret PyNone) s.

(** Every method that works on [self.session], with its arguments. *)
Inductive Operation : Type :=
| OpSaveCapabilities
| OpCheckSupervisionStatus
| OpSubscribe
| OpResetSupervisionWatchdog
| OpGetAvailableStreams
| OpReceiveNotifications
| OpConfigureCallHome (ipv4_address port interface_name sub_interface : scalar)
| OpRetrieveTx
| OpRetrieveRx
| OpConfigureTx (name : string) (ccb afc cb gain : scalar)
| OpConfigureRx (name : string) (ccb afc cb gain_correction n_ta_offset : scalar)
| OpDeleteTx (name : string) (ccb afc cb gain : scalar)
| OpDeleteRx (name : string) (ccb afc cb gain_correction n_ta_offset : scalar)
| OpGetRunningConfig
| OpRetrieveCarrierStatus (tx_name rx_name : string)
| OpActivateCarriers (tx_name rx_name : string)
| OpDeactivateCarriers (tx_name rx_name : string)
| OpRetrieveRuStates
| OpGetAllStateData
| OpCloseConnection.

Definition run (op : Operation) : M value :=
  match op with
  | OpSaveCapabilities => save_capabilities
  | OpCheckSupervisionStatus => check_supervision_status
  | OpSubscribe => subscribe_to_netconf_notifications
  | OpResetSupervisionWatchdog => reset_supervision_watchdog
  | OpGetAvailableStreams => get_available_streams
  | OpReceiveNotifications => receive_notifications
  | OpConfigureCallHome a p i s => configure_call_home a p i s
  | OpRetrieveTx => retrieve_tx_array_carrier_info
  | OpRetrieveRx => retrieve_rx_array_carrier_info
  | OpConfigureTx n a b c g => configure_tx_array_carrier n a b c g
  | OpConfigureRx n a b c g t => configure_rx_array_carrier n a b c g t
  | OpDeleteTx n a b c g => delete_tx_array_carrier n a b c g
  | OpDeleteRx n a b c g t => delete_rx_array_carrier n a b c g t
  | OpGetRunningConfig => get_running_config
  | OpRetrieveCarrierStatus t r => retrieve_carrier_status t r
  | OpActivateCarriers t r => activate_carriers t r
  | OpDeactivateCarriers t r => deactivate_carriers t r
  | OpRetrieveRuStates => retrieve_ru_states
  | OpGetAllStateData => get_all_state_data
  | OpCloseConnection => close_connection
  end.

End Methods.

(** ** Observations on a run *)

(** The calls made on the session between [s] and [s']. *)
Definition new_requests (s s' : State) : list Request :=
  skipn (length (sent s)) (sent s').

Definition edit_configs (rs : list Request) : list Request :=
  filter is_edit_config rs.

(** Whether an outcome is an exception of class [cls]. *)
Definition raises {A} (cls : string) (o : Outcome A) : bool :=
  match o with
  | Raised e => String.eqb (exn_class e) cls
  | Returned _ => false
  end.

(** The null results: [None], and the [(None, None)] of
    [retrieve_carrier_status]. *)
Definition is_null (v : value) : bool :=
  match v with
  | PyNone => true
  | PyTuple PyNone PyNone => true
  | _ => false
  end.

(** Whether a status pair, as [retrieve_carrier_status] returned it, has
    both sides equal to [state]. *)
Definition both_are (state : string) (o : Outcome value) : bool :=
  match o with
  | Returned (PyTuple a b) => py_eq_str a state && py_eq_str b state
  | _ => false
  end.

(** What [retrieve_carrier_status] reports for carrier [name] on the
    reply text [xml]. *)
Definition reported (name xml : string) : string :=
  if str_in (name_tag name) xml && str_in (active_tag "ACTIVE") xml
  then "ACTIVE" else "INACTIVE".

(** The text of a field of the watchdog-reset element, as
    [rpc.find("supervision-watchdog-reset").find(tag).text]. *)
Definition watchdog_field (tag : string) : option string :=
  match ET.find "supervision-watchdog-reset" watchdog_reset_element with
  | Some reset =>
      match ET.find tag reset with
      | Some field => ET.text_of field
      | None => None
      end
  | None => None
  end.

(** Modelled from the spec: the [WatchdogConfig] value object of the data
    model, absent from the source, whose [reset_supervision_watchdog]
    takes no arguments. *)
Record WatchdogConfig := mkWatchdogConfig {
  notification_interval : Z;
  guard_timer_overhead : Z
}.

(** Modelled from the spec: a watchdog-reset payload carries the
    configured values when its two fields hold their decimal text. *)
Definition carries_config (cfg : WatchdogConfig) (rpc : string) : bool :=
  str_in ("<supervision-notification-interval>"
          ++ str_of_int (notification_interval cfg)
          ++ "</supervision-notification-interval>") rpc
  && str_in ("<guard-timer-overhead>"
             ++ str_of_int (guard_timer_overhead cfg)
             ++ "</guard-timer-overhead>") rpc.

(** ** The script at the end of the file *)

(** The client the script builds; [capabilities_file] keeps its default. *)
Definition ru_client : NetconfRUClient :=
  init "10.1.8.14" 830 "oranbenetel" "aaBB00!$aaBB00!$"
       "netconf_responses.xml" "netconf_capabilty.xml".

(** The state in which the script starts. *)
Definition boot : State := mkState ru_client [] [] [].

(** The statements of the script that are not commented out. *)
Definition main (env : Env) : M value :=
  connect env ;;
  subscribe_to_netconf_notifications env ;;
  close_connection.

(** ** Tables and relations used to state properties of every method *)

(** The one call that a method makes on the session, for the methods
    that make exactly one. *)
Definition single_request (op : Operation) : option Request :=
  match op with
  | OpCheckSupervisionStatus => Some (Get (Some supervision_filter))
  | OpSubscribe => Some (Dispatch subscription_rpc)
  | OpResetSupervisionWatchdog => Some (Dispatch watchdog_reset_rpc)
  | OpGetAvailableStreams => Some (Get (Some streams_filter))
  | OpReceiveNotifications => Some (TakeNotification 10)
  | OpConfigureCallHome a p i su =>
      Some (EditConfig "running" (call_home_payload a p i su))
  | OpRetrieveTx => Some (Get (Some tx_carriers_filter))
  | OpRetrieveRx => Some (Get (Some rx_carriers_filter))
  | OpDeleteTx n a b c g => Some (EditConfig "running" (tx_delete_payload n a b c g))
  | OpDeleteRx n a b c g t =>
      Some (EditConfig "running" (rx_delete_payload n a b c g t))
  | OpGetRunningConfig => Some (GetConfig "running")
  | OpRetrieveCarrierStatus t r => Some (Get (Some (status_filter t r)))
  | OpRetrieveRuStates => Some (Get (Some ru_states_filter))
  | OpGetAllStateData => Some (Get None)
  | OpCloseConnection => Some CloseSession
  | OpSaveCapabilities
  | OpConfigureTx _ _ _ _ _
  | OpConfigureRx _ _ _ _ _ _
  | OpActivateCarriers _ _
  | OpDeactivateCarriers _ _ => None
  end.

(** The methods in which every session call and every file operation
    sits inside a [try] and nothing else can raise. *)
Definition catches_everything (op : Operation) : bool :=
  match op with
  | OpSaveCapabilities
  | OpConfigureTx _ _ _ _ _ | OpConfigureRx _ _ _ _ _ _ | OpCloseConnection => false
  | _ => true
  end.

(** What a successful call returns, for the methods that hand the reply
    back: its text, or the reply object. *)
Definition handed_back (op : Operation) (xml : string) : option value :=
  match op with
  | OpRetrieveTx | OpRetrieveRx | OpGetRunningConfig | OpRetrieveRuStates =>
      Some (PyStr xml)
  | OpSubscribe | OpResetSupervisionWatchdog
  | OpConfigureCallHome _ _ _ _
  | OpDeleteTx _ _ _ _ _ | OpDeleteRx _ _ _ _ _ _ => Some (PyReply xml)
  | _ => None
  end.

(** The part of the state that the unit and the caller can observe: the
    client object and the calls made on the session. *)
Definition wire (s : State) : NetconfRUClient * list Request := (self s, sent s).

(** Two computations agree on the wire: from states with the same wire
    they give the same outcome and leave the same wire. *)
Definition same_wire {A} (m1 m2 : M A) : Prop :=
  forall s1 s2,
    wire s1 = wire s2 ->
    fst (m1 s1) = fst (m2 s2) /\ wire (snd (m1 s1)) = wire (snd (m2 s2)).

(** [s'] extends [s]: the same client object, and the three logs of [s]
    with entries added at the end. *)
Definition extends (s s' : State) : Prop :=
  self s' = self s
  /\ (exists rs, sent s' = (sent s ++ rs)%list)
  /\ (exists out, stdout s' = (stdout s ++ out)%list)
  /\ (exists fs, files s' = (files s ++ fs)%list).

(** A computation that only extends the state. *)
Definition extending {A} (m : M A) : Prop := forall s, extends s (snd (m s)).

(** A computation that always returns. *)
Definition returning {A} (m : M A) : Prop := forall s, exists a, fst (m s) = Returned a.

(** A computation that returns without touching the wire. *)
Definition quiet {A} (m : M A) : Prop :=
  forall s, (exists a, fst (m s) = Returned a) /\ wire (snd (m s)) = wire s.

(** The two lines that [save_to_file] can print for the file [path]. *)
Definition is_save_line (path line : string) : Prop :=
  line = "Response saved to " ++ path
  \/ exists e, line = "Failed to save XML response: " ++ exn_msg e.

(** What [receive_notifications] prints for the notifications [ns],
    given the line that saving each of them printed. *)
Definition notification_lines (ns saved : list string) : list string :=
  flat_map (fun p => ["Received Notification: " ++ fst p; snd p]) (combine ns saved).

(** ** Concrete sessions *)

Module Demo.

(** A session that answers every call with the same reply text. *)
Definition answering (xml : string) : Session :=
  mkSession (fun _ _ => inr xml) (fun _ => inr ([], None)) [].

(** A session on which every call raises. *)
Definition failing (e : Exn) : Session :=
  mkSession (fun _ _ => inl e) (fun _ => inl e) [].

Definition timeout_error : Exn := mkExn "TimeoutExpiredError" "ncclient timed out".
Definition ssh_error : Exn := mkExn "SSHError" "Could not open socket to 10.1.8.14:830".

(** An environment where the connection attempt fails. *)
Definition unreachable : Env :=
  mkEnv (fun _ _ _ _ => inl ssh_error) (fun x => inr x) (String.concat nl)
        (fun _ _ _ => None) (fun _ _ _ => None).

(** A unit with no carriers configured. *)
Definition no_carriers : string := "<data/>".

(** An environment where the unit accepts the connection. *)
Definition libs : Env :=
  mkEnv (fun _ _ _ _ => inr (answering no_carriers)) (fun x => inr x)
        (String.concat nl) (fun _ _ _ => None) (fun _ _ _ => None).

Definition client : NetconfRUClient :=
  init "10.1.8.14" 830 "oran" "secret" "netconf_responses.xml" "netconf_capabilty.xml".

Definition start (o : option Session) : State :=
  mkState (set_session client o) [] [] [].

(** A unit holding TX carrier A and RX carrier B, both active. *)
Definition both_active : string :=
  "<data><tx-array-carriers><name>A</name><active>ACTIVE</active></tx-array-carriers>"
  ++ "<rx-array-carriers><name>B</name><active>ACTIVE</active></rx-array-carriers></data>".

(** The same unit with both carriers inactive. *)
Definition both_inactive : string :=
  "<data><tx-array-carriers><name>A</name><active>INACTIVE</active></tx-array-carriers>"
  ++ "<rx-array-carriers><name>B</name><active>INACTIVE</active></rx-array-carriers></data>".

(** TX carrier A active, RX carrier B inactive. *)
Definition tx_only_active : string :=
  "<data><tx-array-carriers><name>A</name><active>ACTIVE</active></tx-array-carriers>"
  ++ "<rx-array-carriers><name>B</name><active>INACTIVE</active></rx-array-carriers></data>".

Definition supervised_reply : string :=
  "<data><supervision-status>supervised</supervision-status></data>".

Definition bandwidth : scalar := SInt 100000000.
Definition centre : scalar := SInt 4150000000.
Definition arfcn : scalar := SInt 653616.
Definition gain : scalar := SText "0.0".
Definition n_ta_offset : scalar := SInt 25600.

Definition half_minute : WatchdogConfig := mkWatchdogConfig 30000 3.

Definition tx_list : string :=
  "<data><tx-array-carriers><name>A</name></tx-array-carriers></data>".

Definition rx_list : string :=
  "<data><rx-array-carriers><name>B</name></rx-array-carriers></data>".

(** A unit that answers the two carrier reads with [tx_list] and
    [rx_list], every other read with [status], and accepts every other
    call. *)
Definition radio (status : string) : Session :=
  mkSession
    (fun _ r =>
       match r with
       | Get (Some f) =>
           if String.eqb f tx_carriers_filter then inr tx_list
           else if String.eqb f rx_carriers_filter then inr rx_list
           else inr status
       | _ => inr "<rpc-reply><ok/></rpc-reply>"
       end)
    (fun _ => inr ([], None))
    [ns_netconf].

(** A unit that lists no carrier until it has received an edit-config,
    and carriers A and B, both active, afterwards. *)
Definition creating : Session :=
  mkSession
    (fun history r =>
       match r with
       | Get _ => if existsb is_edit_config history then inr both_active
                  else inr no_carriers
       | _ => inr "<rpc-reply><ok/></rpc-reply>"
       end)
    (fun _ => inr ([], None))
    [ns_netconf].

(** A unit whose carriers A and B are inactive until it has received an
    edit-config, and active afterwards. *)
Definition switching : Session :=
  mkSession
    (fun history r =>
       match r with
       | Get _ => if existsb is_edit_config history then inr both_active
                  else inr both_inactive
       | _ => inr "<rpc-reply><ok/></rpc-reply>"
       end)
    (fun _ => inr ([], None))
    [ns_netconf].

Definition session_closed : Exn :=
  mkExn "SessionCloseError" "Unexpected session close".

(** A unit that delivers two notifications and then drops the session. *)
Definition notifying : Session :=
  mkSession (fun _ _ => inr "<rpc-reply><ok/></rpc-reply>")
            (fun _ => inr (["<notification>1</notification>";
                            "<notification>2</notification>"],
                           Some session_closed))
            [ns_netconf].

(** An environment whose pretty-printer rejects every reply. *)
Definition unparsable : Env :=
  mkEnv (fun _ _ _ _ => inl ssh_error)
        (fun _ => inl (mkExn "ExpatError" "syntax error: line 1, column 0"))
        (String.concat nl) (fun _ _ _ => None) (fun _ _ _ => None).

Definition no_directory : Exn :=
  mkExn "FileNotFoundError" "[Errno 2] No such file or directory".

(** An environment in which no file can be opened. *)
Definition no_disk : Env :=
  mkEnv (fun _ _ _ _ => inl ssh_error) (fun x => inr x) (String.concat nl)
        (fun _ _ _ => Some no_directory) (fun _ _ _ => None).

(** The client before [connect], and connected to units in various
    states. *)
Definition idle : State := start None.
Definition on_air : State := start (Some (radio both_active)).
Definition off_air : State := start (Some (radio both_inactive)).
Definition half_on : State := start (Some (radio tx_only_active)).
Definition supervised_unit : State := start (Some (radio supervised_reply)).
Definition silent : State := start (Some (failing timeout_error)).
Definition bare : State := start (Some (answering no_carriers)).
Definition empty_unit : State := start (Some creating).
Definition dark_unit : State := start (Some switching).
Definition listening : State := start (Some notifying).

(** A connected client that has already printed and sent something. *)
Definition busy : State :=
  mkState (set_session client (Some (radio both_active)))
          [] ["Successfully connected to RU at 10.1.8.14"]
          [Opened "netconf_responses.xml" "a";
           Wrote "netconf_responses.xml" "<data/>"].

End Demo.

(** * Properties *)

(** ** Substring search *)

Section StrIn.

Lemma prefix_app (n b : string) : String.prefix n (n ++ b) = true.
Proof.
  induction n as [|c n IH]; simpl.
  - destruct b; reflexivity.
  - destruct (ascii_dec c c) as [_|ne]; [exact IH | now elim ne].
Qed.

Lemma prefix_inv (n h : string) :
  String.prefix n h = true -> exists b, h = n ++ b.
Proof.
  revert h; induction n as [|c n IH]; intros h H.
  - exists h; reflexivity.
  - destruct h as [|d h]; simpl in H; [discriminate|].
    destruct (ascii_dec c d) as [->|]; [|discriminate].
    destruct (IH _ H) as [b ->]. exists b; reflexivity.
Qed.

Lemma append_assoc (a b c : string) : (a ++ b) ++ c = a ++ b ++ c.
Proof. induction a; simpl; congruence. Qed.

Lemma str_in_unfold (n h : string) :
  str_in n h = if String.prefix n h then true
               else match h with
                    | EmptyString => false
                    | String _ rest => str_in n rest
                    end.
Proof. destruct h; reflexivity. Qed.

Lemma str_in_here (n b : string) : str_in n (n ++ b) = true.
Proof. rewrite str_in_unfold, prefix_app; reflexivity. Qed.

Lemma str_in_skip (a n h : string) :
  str_in n h = true -> str_in n (a ++ h) = true.
Proof.
  intros H; induction a as [|c a IH]; simpl; [exact H|].
  rewrite IH. destruct n as [|d n]; [reflexivity|].
  destruct (ascii_dec d c); [|reflexivity].
  destruct (String.prefix n (a ++ h)); reflexivity.
Qed.

(** [str_in] is substring search: it holds exactly when the needle
    occurs somewhere in the text. *)
Lemma str_in_spec (n h : string) :
  str_in n h = true <-> exists a b, h = a ++ n ++ b.
Proof.
  split.
  - induction h as [|c h IH]; rewrite str_in_unfold.
    + destruct (String.prefix n EmptyString) eqn:P; [|discriminate].
      intros _. destruct (prefix_inv _ _ P) as [b ->].
      now exists EmptyString, b.
    + destruct (String.prefix n (String c h)) eqn:P.
      * intros _. destruct (prefix_inv _ _ P) as [b ->].
        now exists EmptyString, b.
      * intros H. destruct (IH H) as (a & b & ->).
        now exists (String c a), b.
  - intros (a & b & ->). apply str_in_skip, str_in_here.
Qed.

Lemma str_in_refl (n : string) : str_in n n = true.
Proof. apply str_in_spec. exists EmptyString, EmptyString. simpl. induction n; simpl; congruence. Qed.

Lemma str_in_trans (a b c : string) :
  str_in a b = true -> str_in b c = true -> str_in a c = true.
Proof.
  rewrite !str_in_spec. intros (x & y & ->) (u & v & ->).
  exists (u ++ x), (y ++ v). now rewrite !append_assoc.
Qed.

Lemma str_in_lines (n l : string) (ls : list string) :
  In l ls -> str_in n l = true -> str_in n (lines ls) = true.
Proof.
  intros HIn Hl. unfold lines.
  induction ls as [|x xs IH]; [destruct HIn|].
  destruct HIn as [->|HIn].
  - destruct xs; simpl; [exact Hl|].
    apply str_in_spec in Hl. destruct Hl as (a & b & ->).
    apply str_in_spec. exists a, (b ++ nl ++ String.concat nl (s :: xs)).
    now rewrite !append_assoc.
  - destruct xs as [|y ys]; [destruct HIn|].
    change (String.concat nl (x :: y :: ys))
      with (x ++ nl ++ String.concat nl (y :: ys)).
    apply str_in_skip, str_in_skip, IH, HIn.
Qed.

Lemma name_in_name_tag (name : string) : str_in name (name_tag name) = true.
Proof. apply str_in_spec. now exists "<name>", "</name>". Qed.

End StrIn.

(** ** The combined payload names both carriers *)

Section Payloads.

Lemma activation_payload_tx (state tx rx : string) :
  str_in (name_tag tx) (activation_payload state tx rx) = true.
Proof.
  unfold activation_payload.
  apply str_in_lines with (l := "              " ++ name_tag tx).
  - simpl; tauto.
  - apply str_in_skip, str_in_refl.
Qed.

Lemma activation_payload_rx (state tx rx : string) :
  str_in (name_tag rx) (activation_payload state tx rx) = true.
Proof.
  unfold activation_payload.
  apply str_in_lines with (l := "              " ++ name_tag rx).
  - simpl; tauto.
  - apply str_in_skip, str_in_refl.
Qed.

Lemma activation_payload_state (state tx rx : string) :
  str_in (active_tag state) (activation_payload state tx rx) = true.
Proof.
  unfold activation_payload.
  apply str_in_lines with (l := "              " ++ active_tag state).
  - simpl; tauto.
  - apply str_in_skip, str_in_refl.
Qed.

Lemma bare_name_in_payload (state tx rx : string) :
  str_in tx (activation_payload state tx rx)
  && str_in rx (activation_payload state tx rx) = true.
Proof.
  apply andb_true_intro; split.
  - exact (str_in_trans _ _ _ (name_in_name_tag tx)
             (activation_payload_tx state tx rx)).
  - exact (str_in_trans _ _ _ (name_in_name_tag rx)
             (activation_payload_rx state tx rx)).
Qed.

Lemma tx_delete_payload_marker (name : string) (a b c g : scalar) :
  str_in (attr "nc:operation" "delete") (tx_delete_payload name a b c g) = true
  /\ str_in (name_tag name) (tx_delete_payload name a b c g) = true.
Proof.
  unfold tx_delete_payload; split.
  - apply str_in_lines
      with (l := "            <tx-array-carriers " ++ attr "nc:operation" "delete").
    + simpl; tauto.
    + apply str_in_skip, str_in_refl.
  - apply str_in_lines with (l := "              " ++ name_tag name).
    + simpl; tauto.
    + apply str_in_skip, str_in_refl.
Qed.

Lemma rx_delete_payload_marker (name : string) (a b c g t : scalar) :
  str_in (attr "nc:operation" "delete") (rx_delete_payload name a b c g t) = true
  /\ str_in (name_tag name) (rx_delete_payload name a b c g t) = true.
Proof.
  unfold rx_delete_payload; split.
  - apply str_in_lines
      with (l := "            <rx-array-carriers " ++ attr "nc:operation" "delete").
    + simpl; tauto.
    + apply str_in_skip, str_in_refl.
  - apply str_in_lines with (l := "              " ++ name_tag name).
    + simpl; tauto.
    + apply str_in_skip, str_in_refl.
Qed.

End Payloads.

(** ** How the building blocks act on the state *)

Section Runs.

Variable env : Env.

(** Saving a reply never raises and touches neither the client nor the
    calls made on the session: it prints one line and may write to the
    response file. *)
Lemma save_to_file_run (xml_data message : string) (s : State) :
  exists line fs,
    save_to_file env xml_data message s
    = (Returned tt, mkState (self s) (sent s) (stdout s ++ [line]) fs).
Proof.
  unfold save_to_file, try_except, bind, get_self, open_file, write_file, print,
    ret, raise.
  destruct (toprettyxml env xml_data) as [e|pretty]; cbn; [eauto|].
  destruct (fs_open env _ _ _); cbn; [eauto|].
  destruct (String.eqb message EmptyString); cbn;
    repeat match goal with
           | |- context [fs_write env ?j ?p ?c] => destruct (fs_write env j p c); cbn
           end;
    eauto.
Qed.

Lemma new_requests_app (s s' : State) (rs : list Request) :
  sent s' = (sent s ++ rs)%list -> new_requests s s' = rs.
Proof.
  intros E. unfold new_requests. rewrite E, skipn_app, skipn_all, Nat.sub_diag.
  reflexivity.
Qed.

Lemma new_requests_same (s s' : State) :
  sent s' = sent s -> new_requests s s' = [].
Proof.
  intros E. apply new_requests_app. now rewrite app_nil_r.
Qed.

Lemma bind_ret_run {A B} (a : A) (k : A -> M B) (s : State) :
  bind (ret a) k s = k a s.
Proof. reflexivity. Qed.

Lemma call_ok (s : State) (ses : Session) (r : Request) (xml : string) :
  session (self s) = Some ses ->
  reply ses (sent s) r = inr xml ->
  call r s
  = (Returned xml, mkState (self s) (sent s ++ [r]) (stdout s) (files s)).
Proof. intros H1 H2. unfold call. now rewrite H1, H2. Qed.

Lemma call_raises (s : State) (ses : Session) (r : Request) (e : Exn) :
  session (self s) = Some ses ->
  reply ses (sent s) r = inl e ->
  call r s
  = (Raised e, mkState (self s) (sent s ++ [r]) (stdout s) (files s)).
Proof. intros H1 H2. unfold call. now rewrite H1, H2. Qed.

Lemma call_no_session (s : State) (r : Request) :
  session (self s) = None ->
  exists e, call r s = (Raised e, s).
Proof. intros H. unfold call. rewrite H. eauto. Qed.

(** The block that ends every configuration method: one [edit_config]
    call inside [try], whose exception is caught.  Exactly that call is
    made, and the block returns the reply or [None]. *)
Lemma send_edit_config (s : State) (ses : Session) (p m1 m2 pre : string) :
  session (self s) = Some ses ->
  exists out fs,
    try_except
      (response <- call (EditConfig "running" p) ;;
       print m1 ;;
       save_to_file env response m2 ;;
       ret (PyReply response))
      (fun e => print (pre ++ exn_msg e) ;; ret PyNone) s
    = (Returned match reply ses (sent s) (EditConfig "running" p) with
                | inl _ => PyNone
                | inr xml => PyReply xml
                end,
       mkState (self s) (sent s ++ [EditConfig "running" p]) (stdout s ++ out) fs).
Proof.
  intros Hs. unfold try_except, bind.
  destruct (reply ses (sent s) (EditConfig "running" p)) as [e|xml] eqn:Hr.
  - rewrite (call_raises _ _ _ _ Hs Hr). unfold print, ret; cbn. eauto.
  - rewrite (call_ok _ _ _ _ Hs Hr). unfold print at 1.
    cbn [self sent stdout files].
    match goal with |- context [save_to_file env ?x ?m ?st] =>
      destruct (save_to_file_run x m st) as (line & fs & E); rewrite E end.
    unfold ret; cbn [self sent stdout files].
    exists [m1; line], fs. now rewrite <- app_assoc.
Qed.

Ltac saved :=
  match goal with
  | |- context [save_to_file env ?x ?m ?st] =>
      let line := fresh "line" in
      let fs := fresh "fs" in
      let E := fresh "E" in
      destruct (save_to_file_run x m st) as (line & fs & E);
      rewrite E; clear E; cbn [self sent stdout files]
  end.

Ltac enter Hs := unfold guarded, connected; rewrite Hs.

(** ** Reading the carrier status *)

Lemma retrieve_carrier_status_ok
  (s : State) (ses : Session) (tx rx xml : string) :
  session (self s) = Some ses ->
  reply ses (sent s) (Get (Some (status_filter tx rx))) = inr xml ->
  exists out fs,
    retrieve_carrier_status env tx rx s
    = (Returned (PyTuple (PyStr (reported tx xml)) (PyStr (reported rx xml))),
       mkState (self s) (sent s ++ [Get (Some (status_filter tx rx))])
               (stdout s ++ out) fs).
Proof.
  intros Hs Hr. unfold retrieve_carrier_status. enter Hs.
  unfold try_except, bind. rewrite (call_ok _ _ _ _ Hs Hr). saved.
  unfold print, ret. cbn [self sent stdout files].
  eexists [_; _], fs. unfold reported. rewrite <- app_assoc. reflexivity.
Qed.

Lemma retrieve_carrier_status_raises
  (s : State) (ses : Session) (tx rx : string) (e : Exn) :
  session (self s) = Some ses ->
  reply ses (sent s) (Get (Some (status_filter tx rx))) = inl e ->
  retrieve_carrier_status env tx rx s
  = (Returned (PyTuple PyNone PyNone),
     mkState (self s) (sent s ++ [Get (Some (status_filter tx rx))])
             (stdout s ++ ["Failed to retrieve carrier status: " ++ exn_msg e])
             (files s)).
Proof.
  intros Hs Hr. unfold retrieve_carrier_status. enter Hs.
  unfold try_except, bind. rewrite (call_raises _ _ _ _ Hs Hr).
  reflexivity.
Qed.

(** The tail shared by [activate_carriers] and [deactivate_carriers]:
    what the method does once the status pair is known. *)
Lemma pair_change_run
  (target done_msg ok_msg save_msg fail_msg tx rx : string)
  (a b : value) (s1 : State) (ses : Session) :
  session (self s1) = Some ses ->
  exists v out fs,
    (if py_eq_str a target && py_eq_str b target then
       (print done_msg ;; ret PyNone)
     else
       try_except
         (response <- call (EditConfig "running" (activation_payload target tx rx)) ;;
          print ok_msg ;;
          save_to_file env response save_msg ;;
          ret (PyReply response))
         (fun e => print (fail_msg ++ exn_msg e) ;; ret PyNone)) s1
    = (Returned v,
       mkState (self s1)
               (sent s1 ++ if py_eq_str a target && py_eq_str b target then []
                           else [EditConfig "running" (activation_payload target tx rx)])
               (stdout s1 ++ out) fs)
    /\ (py_eq_str a target && py_eq_str b target = true -> v = PyNone).
Proof.
  intros Hs. destruct (py_eq_str a target && py_eq_str b target).
  - unfold print, bind, ret. cbn. rewrite app_nil_r. eauto.
  - destruct (send_edit_config s1 ses (activation_payload target tx rx)
                ok_msg save_msg fail_msg Hs) as (out & fs & E).
    rewrite E. do 3 eexists. split; [reflexivity | discriminate].
Qed.

(** The status pair that [activate_carriers] and [deactivate_carriers]
    read on a connected client is always a pair. *)
Lemma retrieve_carrier_status_pair
  (s : State) (ses : Session) (tx rx : string) :
  session (self s) = Some ses ->
  exists a b out fs,
    retrieve_carrier_status env tx rx s
    = (Returned (PyTuple a b),
       mkState (self s) (sent s ++ [Get (Some (status_filter tx rx))])
               (stdout s ++ out) fs).
Proof.
  intros Hs.
  destruct (reply ses (sent s) (Get (Some (status_filter tx rx)))) as [e|xml] eqn:Hr.
  - rewrite (retrieve_carrier_status_raises _ _ _ _ _ Hs Hr). do 4 eexists. reflexivity.
  - destruct (retrieve_carrier_status_ok _ _ _ _ _ Hs Hr) as (out & fs & E).
    rewrite E. do 4 eexists. reflexivity.
Qed.

Lemma activate_carriers_run (s : State) (ses : Session) (tx rx : string) :
  session (self s) = Some ses ->
  let at_target :=
    both_are "ACTIVE" (fst (retrieve_carrier_status env tx rx s)) in
  exists v out fs,
    activate_carriers env tx rx s
    = (Returned v,
       mkState (self s)
               (sent s ++ Get (Some (status_filter tx rx))
                  :: if at_target then []
                     else [EditConfig "running" (activation_payload "ACTIVE" tx rx)])
               (stdout s ++ out) fs)
    /\ (at_target = true -> v = PyNone).
Proof.
  intros Hs at_target. subst at_target.
  destruct (retrieve_carrier_status_pair s ses tx rx Hs) as (a & b & out & fs & E).
  unfold activate_carriers. enter Hs. unfold bind at 1. rewrite E.
  unfold unpack2. rewrite bind_ret_run. cbn [fst snd both_are].
  match goal with |- context [if ?c then _ else try_except ?body ?h] =>
    match body with context [print ?ok] =>
    match h with context [print (?fail ++ _)] =>
    match goal with |- context [if c then (print ?done ;; _) else _] =>
      destruct (pair_change_run "ACTIVE" done ok "Carriers Activation" fail tx rx a b
                  (mkState (self s) (sent s ++ [Get (Some (status_filter tx rx))])
                           (stdout s ++ out) fs) ses Hs)
        as (v & out' & fs' & E' & Hv)
    end end end
  end.
  rewrite E'. cbn [self sent stdout files].
  exists v, (out ++ out')%list, fs'. split; [|exact Hv].
  rewrite <- !app_assoc. reflexivity.
Qed.

Lemma deactivate_carriers_run (s : State) (ses : Session) (tx rx : string) :
  session (self s) = Some ses ->
  let at_target :=
    both_are "INACTIVE" (fst (retrieve_carrier_status env tx rx s)) in
  exists v out fs,
    deactivate_carriers env tx rx s
    = (Returned v,
       mkState (self s)
               (sent s ++ Get (Some (status_filter tx rx))
                  :: if at_target then []
                     else [EditConfig "running" (activation_payload "INACTIVE" tx rx)])
               (stdout s ++ out) fs)
    /\ (at_target = true -> v = PyNone).
Proof.
  intros Hs at_target. subst at_target.
  destruct (retrieve_carrier_status_pair s ses tx rx Hs) as (a & b & out & fs & E).
  unfold deactivate_carriers. enter Hs. unfold bind at 1. rewrite E.
  unfold unpack2. rewrite bind_ret_run. cbn [fst snd both_are].
  match goal with |- context [if ?c then _ else try_except ?body ?h] =>
    match body with context [print ?ok] =>
    match h with context [print (?fail ++ _)] =>
    match goal with |- context [if c then (print ?done ;; _) else _] =>
      destruct (pair_change_run "INACTIVE" done ok "Carriers Deactivation" fail tx rx a b
                  (mkState (self s) (sent s ++ [Get (Some (status_filter tx rx))])
                           (stdout s ++ out) fs) ses Hs)
        as (v & out' & fs' & E' & Hv)
    end end end
  end.
  rewrite E'. cbn [self sent stdout files].
  exists v, (out ++ out')%list, fs'. split; [|exact Hv].
  rewrite <- !app_assoc. reflexivity.
Qed.

Lemma connected_session (s : State) :
  connected s = true -> exists ses, session (self s) = Some ses.
Proof. unfold connected. destruct (session (self s)); [eauto | discriminate]. Qed.

Lemma edit_configs_after_get (f : option string) (rs : list Request) :
  edit_configs (Get f :: rs) = edit_configs rs.
Proof. reflexivity. Qed.

(** ** The paired activation protocol *)

(** What the pair change sends.  For every state of the client and
    every pair of carrier names, the edit-config calls made by
    [activate_carriers] (respectively [deactivate_carriers]) are either
    none, or exactly one call whose payload holds the name tags of both
    carriers and the target state.  The call is made exactly when a
    session is connected and [retrieve_carrier_status] does not report
    both carriers at the target. *)
Theorem pair_change_is_one_combined_rpc (s : State) (tx rx : string) :
  let on := activation_payload "ACTIVE" tx rx in
  let off := activation_payload "INACTIVE" tx rx in
  edit_configs (new_requests s (snd (activate_carriers env tx rx s)))
  = (if connected s
        && negb (both_are "ACTIVE" (fst (retrieve_carrier_status env tx rx s)))
     then [EditConfig "running" on] else [])
  /\ edit_configs (new_requests s (snd (deactivate_carriers env tx rx s)))
     = (if connected s
           && negb (both_are "INACTIVE" (fst (retrieve_carrier_status env tx rx s)))
        then [EditConfig "running" off] else [])
  /\ str_in (name_tag tx) on && str_in (name_tag rx) on
     && str_in (active_tag "ACTIVE") on = true
  /\ str_in (name_tag tx) off && str_in (name_tag rx) off
     && str_in (active_tag "INACTIVE") off = true
  /\ (str_in tx on && str_in rx on) && (str_in tx off && str_in rx off) = true.
Proof.
  intros on off. subst on off.
  rewrite !activation_payload_tx, !activation_payload_rx, !activation_payload_state.
  rewrite (bare_name_in_payload "ACTIVE" tx rx).
  rewrite (bare_name_in_payload "INACTIVE" tx rx).
  repeat split.
  - destruct (session (self s)) as [ses|] eqn:Hs.
    + destruct (activate_carriers_run s ses tx rx Hs) as (v & out & fs & E & _).
      rewrite E. cbn [snd]. unfold connected. rewrite Hs. cbn [andb].
      erewrite new_requests_app by reflexivity.
      rewrite edit_configs_after_get.
      now destruct (both_are _ _).
    + unfold activate_carriers, guarded, connected. rewrite Hs.
      cbn [andb]. now rewrite new_requests_same.
  - destruct (session (self s)) as [ses|] eqn:Hs.
    + destruct (deactivate_carriers_run s ses tx rx Hs) as (v & out & fs & E & _).
      rewrite E. cbn [snd]. unfold connected. rewrite Hs. cbn [andb].
      erewrite new_requests_app by reflexivity.
      rewrite edit_configs_after_get.
      now destruct (both_are _ _).
    + unfold deactivate_carriers, guarded, connected. rewrite Hs.
      cbn [andb]. now rewrite new_requests_same.
Qed.

(** C3.  On a connected client, [activate_carriers] first reads the
    status of the pair; when the status read shows both carriers ACTIVE
    the call returns [None] having made that read and nothing else, so
    no edit-config is sent.  Likewise [deactivate_carriers] when both
    are INACTIVE. *)
Theorem pair_change_noop_at_target (s : State) (tx rx : string) :
  connected s = true ->
  (both_are "ACTIVE" (fst (retrieve_carrier_status env tx rx s)) = true ->
   fst (activate_carriers env tx rx s) = Returned PyNone
   /\ new_requests s (snd (activate_carriers env tx rx s))
      = [Get (Some (status_filter tx rx))])
  /\ (both_are "INACTIVE" (fst (retrieve_carrier_status env tx rx s)) = true ->
      fst (deactivate_carriers env tx rx s) = Returned PyNone
      /\ new_requests s (snd (deactivate_carriers env tx rx s))
         = [Get (Some (status_filter tx rx))]).
Proof.
  intros Hc. destruct (connected_session s Hc) as [ses Hs]. split; intros Hb.
  - destruct (activate_carriers_run s ses tx rx Hs) as (v & out & fs & E & Hv).
    rewrite E. cbn [fst snd]. rewrite (Hv Hb). split; [reflexivity|].
    erewrite new_requests_app by reflexivity. now rewrite Hb.
  - destruct (deactivate_carriers_run s ses tx rx Hs) as (v & out & fs & E & Hv).
    rewrite E. cbn [fst snd]. rewrite (Hv Hb). split; [reflexivity|].
    erewrite new_requests_app by reflexivity. now rewrite Hb.
Qed.

(** C9.  The two states reported by [retrieve_carrier_status] share one
    test: whenever the reply text holds the name tag of the TX carrier,
    the name tag of the RX carrier and the text [<active>ACTIVE</active>]
    anywhere, both carriers are reported ACTIVE. *)
Theorem carrier_status_shares_active_flag
  (s : State) (ses : Session) (tx rx xml : string) :
  session (self s) = Some ses ->
  reply ses (sent s) (Get (Some (status_filter tx rx))) = inr xml ->
  str_in (name_tag tx) xml = true ->
  str_in (name_tag rx) xml = true ->
  str_in (active_tag "ACTIVE") xml = true ->
  fst (retrieve_carrier_status env tx rx s)
  = Returned (PyTuple (PyStr "ACTIVE") (PyStr "ACTIVE")).
Proof.
  intros Hs Hr Htx Hrx Hact.
  destruct (retrieve_carrier_status_ok s ses tx rx xml Hs Hr) as (out & fs & E).
  rewrite E. cbn [fst]. unfold reported. now rewrite Htx, Hrx, Hact.
Qed.

(** ** Creating a carrier *)

Lemma retrieve_tx_ok (s : State) (ses : Session) (xml : string) :
  session (self s) = Some ses ->
  reply ses (sent s) (Get (Some tx_carriers_filter)) = inr xml ->
  exists line fs,
    retrieve_tx_array_carrier_info env s
    = (Returned (PyStr xml),
       mkState (self s) (sent s ++ [Get (Some tx_carriers_filter)])
               (stdout s ++ [line]) fs).
Proof.
  intros Hs Hr. unfold retrieve_tx_array_carrier_info. enter Hs.
  unfold try_except, bind. rewrite (call_ok _ _ _ _ Hs Hr). saved.
  unfold ret. eauto.
Qed.

Lemma retrieve_rx_ok (s : State) (ses : Session) (xml : string) :
  session (self s) = Some ses ->
  reply ses (sent s) (Get (Some rx_carriers_filter)) = inr xml ->
  exists line fs,
    retrieve_rx_array_carrier_info env s
    = (Returned (PyStr xml),
       mkState (self s) (sent s ++ [Get (Some rx_carriers_filter)])
               (stdout s ++ [line]) fs).
Proof.
  intros Hs Hr. unfold retrieve_rx_array_carrier_info. enter Hs.
  unfold try_except, bind. rewrite (call_ok _ _ _ _ Hs Hr). saved.
  unfold ret. eauto.
Qed.

Lemma retrieve_tx_raises (s : State) (ses : Session) (e : Exn) :
  session (self s) = Some ses ->
  reply ses (sent s) (Get (Some tx_carriers_filter)) = inl e ->
  retrieve_tx_array_carrier_info env s
  = (Returned PyNone,
     mkState (self s) (sent s ++ [Get (Some tx_carriers_filter)])
             (stdout s
              ++ ["Failed to retrieve TX array carrier information: " ++ exn_msg e])
             (files s)).
Proof.
  intros Hs Hr. unfold retrieve_tx_array_carrier_info. enter Hs.
  unfold try_except, bind. now rewrite (call_raises _ _ _ _ Hs Hr).
Qed.

Lemma retrieve_rx_raises (s : State) (ses : Session) (e : Exn) :
  session (self s) = Some ses ->
  reply ses (sent s) (Get (Some rx_carriers_filter)) = inl e ->
  retrieve_rx_array_carrier_info env s
  = (Returned PyNone,
     mkState (self s) (sent s ++ [Get (Some rx_carriers_filter)])
             (stdout s
              ++ ["Failed to retrieve RX array carrier information: " ++ exn_msg e])
             (files s)).
Proof.
  intros Hs Hr. unfold retrieve_rx_array_carrier_info. enter Hs.
  unfold try_except, bind. now rewrite (call_raises _ _ _ _ Hs Hr).
Qed.

Lemma configure_tx_run
  (s : State) (ses : Session) (name xml : string) (a b c g : scalar) :
  session (self s) = Some ses ->
  reply ses (sent s) (Get (Some tx_carriers_filter)) = inr xml ->
  exists v st,
    configure_tx_array_carrier env name a b c g s = (Returned v, st)
    /\ sent st
       = (sent s ++ Get (Some tx_carriers_filter)
           :: (if str_in (name_tag name) xml then []
               else [EditConfig "running" (tx_create_payload name a b c g)]))%list
    /\ (str_in (name_tag name) xml = true ->
        v = PyNone
        /\ last (stdout st) EmptyString
           = "TX Array Carrier '" ++ name ++ "' already exists, skipping configuration.").
Proof.
  intros Hs Hr.
  destruct (retrieve_tx_ok s ses xml Hs Hr) as (line & fs & E).
  unfold configure_tx_array_carrier. enter Hs. unfold bind at 1. rewrite E.
  unfold py_in. rewrite bind_ret_run.
  destruct (str_in (name_tag name) xml).
  - unfold print, bind, ret. cbn [self sent stdout files].
    do 2 eexists. split; [reflexivity|]. cbn [sent stdout]. split; [reflexivity|].
    intros _. split; [reflexivity | apply last_last].
  - match goal with |- context [try_except ?body ?h ?st] =>
      match body with context [print ?ok] =>
      match h with context [print (?fail ++ _)] =>
        destruct (send_edit_config st ses (tx_create_payload name a b c g)
                    ok "TX Array Carrier Configuration" fail Hs)
          as (out & fs' & E')
      end end
    end.
    cbv zeta. rewrite E'. do 2 eexists. split; [reflexivity|].
    cbn [self sent stdout files]. split; [|discriminate].
    now rewrite <- app_assoc.
Qed.

Lemma configure_rx_run
  (s : State) (ses : Session) (name xml : string) (a b c g t : scalar) :
  session (self s) = Some ses ->
  reply ses (sent s) (Get (Some rx_carriers_filter)) = inr xml ->
  exists v st,
    configure_rx_array_carrier env name a b c g t s = (Returned v, st)
    /\ sent st
       = (sent s ++ Get (Some rx_carriers_filter)
           :: (if str_in (name_tag name) xml then []
               else [EditConfig "running" (rx_create_payload name a b c g t)]))%list
    /\ (str_in (name_tag name) xml = true ->
        v = PyNone
        /\ last (stdout st) EmptyString
           = "RX Array Carrier '" ++ name ++ "' already exists, skipping configuration.").
Proof.
  intros Hs Hr.
  destruct (retrieve_rx_ok s ses xml Hs Hr) as (line & fs & E).
  unfold configure_rx_array_carrier. enter Hs. unfold bind at 1. rewrite E.
  unfold py_in. rewrite bind_ret_run.
  destruct (str_in (name_tag name) xml).
  - unfold print, bind, ret. cbn [self sent stdout files].
    do 2 eexists. split; [reflexivity|]. cbn [sent stdout]. split; [reflexivity|].
    intros _. split; [reflexivity | apply last_last].
  - match goal with |- context [try_except ?body ?h ?st] =>
      match body with context [print ?ok] =>
      match h with context [print (?fail ++ _)] =>
        destruct (send_edit_config st ses (rx_create_payload name a b c g t)
                    ok "RX Array Carrier Configuration" fail Hs)
          as (out & fs' & E')
      end end
    end.
    cbv zeta. rewrite E'. do 2 eexists. split; [reflexivity|].
    cbn [self sent stdout files]. split; [|discriminate].
    now rewrite <- app_assoc.
Qed.

(** C2.  On a connected client whose carrier reads succeed,
    [configure_tx_array_carrier] (respectively
    [configure_rx_array_carrier]) first reads the carriers of its own
    direction and looks for the name tag in the reply.  When the name is
    present it returns [None], its last printed line reports that the
    carrier already exists, and the read is the only call made: no
    edit-config.  When the name is absent the read is followed by
    exactly one edit-config carrying the create payload. *)
Theorem configure_is_idempotent_create
  (s : State) (ses : Session) (name xml_tx xml_rx : string)
  (ccb afc cb gain gain_correction n_ta_offset : scalar) :
  session (self s) = Some ses ->
  reply ses (sent s) (Get (Some tx_carriers_filter)) = inr xml_tx ->
  reply ses (sent s) (Get (Some rx_carriers_filter)) = inr xml_rx ->
  let tx_run := configure_tx_array_carrier env name ccb afc cb gain s in
  let rx_run :=
    configure_rx_array_carrier env name ccb afc cb gain_correction n_ta_offset s in
  (str_in (name_tag name) xml_tx = true ->
   fst tx_run = Returned PyNone
   /\ new_requests s (snd tx_run) = [Get (Some tx_carriers_filter)]
   /\ edit_configs (new_requests s (snd tx_run)) = []
   /\ last (stdout (snd tx_run)) EmptyString
      = "TX Array Carrier '" ++ name ++ "' already exists, skipping configuration.")
  /\ (str_in (name_tag name) xml_tx = false ->
      new_requests s (snd tx_run)
      = [Get (Some tx_carriers_filter);
         EditConfig "running" (tx_create_payload name ccb afc cb gain)])
  /\ (str_in (name_tag name) xml_rx = true ->
      fst rx_run = Returned PyNone
      /\ new_requests s (snd rx_run) = [Get (Some rx_carriers_filter)]
      /\ edit_configs (new_requests s (snd rx_run)) = []
      /\ last (stdout (snd rx_run)) EmptyString
         = "RX Array Carrier '" ++ name ++ "' already exists, skipping configuration.")
  /\ (str_in (name_tag name) xml_rx = false ->
      new_requests s (snd rx_run)
      = [Get (Some rx_carriers_filter);
         EditConfig "running"
           (rx_create_payload name ccb afc cb gain_correction n_ta_offset)]).
Proof.
  intros Hs Htx Hrx tx_run rx_run. subst tx_run rx_run.
  destruct (configure_tx_run s ses name xml_tx ccb afc cb gain Hs Htx)
    as (v & st & E & Hsent & Hpresent).
  destruct (configure_rx_run s ses name xml_rx ccb afc cb gain_correction
              n_ta_offset Hs Hrx)
    as (v' & st' & E' & Hsent' & Hpresent').
  rewrite E, E'. cbn [fst snd].
  rewrite (new_requests_app s st _ Hsent), (new_requests_app s st' _ Hsent').
  split; [|split; [|split]]; intros H; rewrite H.
  - destruct (Hpresent H) as [-> Hlast]. now repeat split.
  - reflexivity.
  - destruct (Hpresent' H) as [-> Hlast']. now repeat split.
  - reflexivity.
Qed.

Lemma configure_tx_failed_read
  (s : State) (ses : Session) (name : string) (e : Exn) (a b c g : scalar) :
  session (self s) = Some ses ->
  reply ses (sent s) (Get (Some tx_carriers_filter)) = inl e ->
  configure_tx_array_carrier env name a b c g s
  = (Raised (TypeError "argument of type 'NoneType' is not iterable"),
     mkState (self s) (sent s ++ [Get (Some tx_carriers_filter)])
             (stdout s
              ++ ["Failed to retrieve TX array carrier information: " ++ exn_msg e])
             (files s)).
Proof.
  intros Hs Hr. unfold configure_tx_array_carrier. enter Hs. unfold bind at 1.
  rewrite (retrieve_tx_raises s ses e Hs Hr). reflexivity.
Qed.

Lemma configure_rx_failed_read
  (s : State) (ses : Session) (name : string) (e : Exn) (a b c g t : scalar) :
  session (self s) = Some ses ->
  reply ses (sent s) (Get (Some rx_carriers_filter)) = inl e ->
  configure_rx_array_carrier env name a b c g t s
  = (Raised (TypeError "argument of type 'NoneType' is not iterable"),
     mkState (self s) (sent s ++ [Get (Some rx_carriers_filter)])
             (stdout s
              ++ ["Failed to retrieve RX array carrier information: " ++ exn_msg e])
             (files s)).
Proof.
  intros Hs Hr. unfold configure_rx_array_carrier. enter Hs. unfold bind at 1.
  rewrite (retrieve_rx_raises s ses e Hs Hr). reflexivity.
Qed.

(** C10.  On a connected client, when the presence read raises, the
    retrieval catches the exception and returns [None]; the membership
    test of [configure_tx_array_carrier] (respectively
    [configure_rx_array_carrier]) on that [None] then raises a
    [TypeError] that nothing catches.  Only the read was sent. *)
Theorem configure_raises_on_failed_read
  (s : State) (ses : Session) (name : string) (e_tx e_rx : Exn)
  (ccb afc cb gain gain_correction n_ta_offset : scalar) :
  session (self s) = Some ses ->
  reply ses (sent s) (Get (Some tx_carriers_filter)) = inl e_tx ->
  reply ses (sent s) (Get (Some rx_carriers_filter)) = inl e_rx ->
  let tx_run := configure_tx_array_carrier env name ccb afc cb gain s in
  let rx_run :=
    configure_rx_array_carrier env name ccb afc cb gain_correction n_ta_offset s in
  fst (retrieve_tx_array_carrier_info env s) = Returned PyNone
  /\ fst (retrieve_rx_array_carrier_info env s) = Returned PyNone
  /\ fst tx_run = Raised (TypeError "argument of type 'NoneType' is not iterable")
  /\ fst rx_run = Raised (TypeError "argument of type 'NoneType' is not iterable")
  /\ new_requests s (snd tx_run) = [Get (Some tx_carriers_filter)]
  /\ new_requests s (snd rx_run) = [Get (Some rx_carriers_filter)].
Proof.
  intros Hs Htx Hrx tx_run rx_run. subst tx_run rx_run.
  rewrite (configure_tx_failed_read s ses name e_tx ccb afc cb gain Hs Htx).
  rewrite (configure_rx_failed_read s ses name e_rx ccb afc cb gain_correction
             n_ta_offset Hs Hrx).
  rewrite (retrieve_tx_raises s ses e_tx Hs Htx).
  rewrite (retrieve_rx_raises s ses e_rx Hs Hrx).
  cbn [fst snd]. repeat split; now apply new_requests_app.
Qed.

(** ** Deleting a carrier *)

(** C4, as the code has it.  [delete_tx_array_carrier] (respectively
    [delete_rx_array_carrier]) makes no presence check: on a connected
    client it makes exactly one call, the edit-config whose payload
    carries the operation-delete marker and the name tag of the carrier,
    whatever the unit holds.  The call never raises: it returns the reply,
    or [None] when the unit rejects the request. *)
Theorem delete_is_unconditional
  (s : State) (ses : Session) (name : string)
  (ccb afc cb gain gain_correction n_ta_offset : scalar) :
  session (self s) = Some ses ->
  let tx_payload := tx_delete_payload name ccb afc cb gain in
  let rx_payload := rx_delete_payload name ccb afc cb gain_correction n_ta_offset in
  let tx_run := delete_tx_array_carrier env name ccb afc cb gain s in
  let rx_run :=
    delete_rx_array_carrier env name ccb afc cb gain_correction n_ta_offset s in
  new_requests s (snd tx_run) = [EditConfig "running" tx_payload]
  /\ new_requests s (snd rx_run) = [EditConfig "running" rx_payload]
  /\ fst tx_run
     = Returned match reply ses (sent s) (EditConfig "running" tx_payload) with
                | inl _ => PyNone
                | inr xml => PyReply xml
                end
  /\ fst rx_run
     = Returned match reply ses (sent s) (EditConfig "running" rx_payload) with
                | inl _ => PyNone
                | inr xml => PyReply xml
                end
  /\ str_in (attr "nc:operation" "delete") tx_payload
     && str_in (name_tag name) tx_payload = true
  /\ str_in (attr "nc:operation" "delete") rx_payload
     && str_in (name_tag name) rx_payload = true.
Proof.
  intros Hs tx_payload rx_payload tx_run rx_run.
  subst tx_run rx_run. unfold delete_tx_array_carrier, delete_rx_array_carrier.
  enter Hs. cbv zeta. fold tx_payload rx_payload.
  match goal with |- context [try_except ?body ?h s] =>
    match body with context [EditConfig "running" tx_payload] =>
    match body with context [print ?ok] =>
    match h with context [print (?fail ++ _)] =>
      destruct (send_edit_config s ses tx_payload ok "TX Array Carrier Deletion"
                  fail Hs) as (out & fs & E)
    end end end
  end.
  match goal with |- context [try_except ?body ?h s] =>
    match body with context [EditConfig "running" rx_payload] =>
    match body with context [print ?ok] =>
    match h with context [print (?fail ++ _)] =>
      destruct (send_edit_config s ses rx_payload ok "RX Array Carrier Deletion"
                  fail Hs) as (out' & fs' & E')
    end end end
  end.
  rewrite E, E'. cbn [fst snd].
  destruct (tx_delete_payload_marker name ccb afc cb gain) as [M1 M2].
  destruct (rx_delete_payload_marker name ccb afc cb gain_correction n_ta_offset)
    as [M3 M4].
  fold tx_payload in M1, M2. fold rx_payload in M3, M4.
  rewrite M1, M2, M3, M4.
  repeat split; now apply new_requests_app.
Qed.

(** ** Calls without a session *)

Lemma not_connected_session (s : State) :
  connected s = false -> session (self s) = None.
Proof. unfold connected. destruct (session (self s)); [discriminate | reflexivity]. Qed.

(** C5, as the code has it.  Whatever the method and its arguments, a
    call made while [self.session] is [None] raises nothing: it prints
    one line and returns normally with a null result.  It makes no call
    on the session and leaves the client, and the files, as they were. *)
Theorem no_session_call_returns_null (op : Operation) (s : State) :
  connected s = false ->
  exists v line,
    run env op s
    = (Returned v, mkState (self s) (sent s) (stdout s ++ [line]) (files s))
    /\ is_null v = true
    /\ new_requests s (snd (run env op s)) = []
    /\ raises "NotConnectedError" (fst (run env op s)) = false.
Proof.
  intros Hc. pose proof (not_connected_session s Hc) as Hs.
  assert (G : forall v body,
             guarded v body s
             = (Returned v,
                mkState (self s) (sent s) (stdout s ++ [no_session_msg]) (files s))).
  { intros v body. unfold guarded. now rewrite Hc. }
  assert (K : forall r, exists e, call r s = (Raised e, s))
    by (intros r; now apply call_no_session).
  destruct op; cbn [run].
  all: try (unfold save_capabilities, check_supervision_status,
              reset_supervision_watchdog, receive_notifications,
              configure_call_home, retrieve_tx_array_carrier_info,
              retrieve_rx_array_carrier_info, configure_tx_array_carrier,
              configure_rx_array_carrier, delete_tx_array_carrier,
              delete_rx_array_carrier, get_running_config,
              retrieve_carrier_status, activate_carriers, deactivate_carriers,
              retrieve_ru_states;
            rewrite !G; do 2 eexists; split; [reflexivity|];
            cbn [fst snd]; rewrite new_requests_same by reflexivity;
            now repeat split).
  - unfold subscribe_to_netconf_notifications, try_except, bind.
    destruct (K (Dispatch (to_ele subscription_rpc))) as [e ->].
    unfold print, ret. cbn [fst snd self sent stdout files].
    do 2 eexists. split; [reflexivity|].
    rewrite new_requests_same by reflexivity. now repeat split.
  - unfold get_available_streams, try_except, bind.
    destruct (K (Get (Some (to_ele streams_filter)))) as [e ->].
    unfold print, ret. cbn [fst snd self sent stdout files].
    do 2 eexists. split; [reflexivity|].
    rewrite new_requests_same by reflexivity. now repeat split.
  - unfold get_all_state_data, try_except, bind.
    destruct (K (Get None)) as [e ->].
    unfold print, ret. cbn [fst snd self sent stdout files].
    do 2 eexists. split; [reflexivity|].
    rewrite new_requests_same by reflexivity. now repeat split.
  - unfold close_connection. rewrite Hc.
    unfold print, bind, ret. cbn [fst snd self sent stdout files].
    do 2 eexists. split; [reflexivity|].
    rewrite new_requests_same by reflexivity. now repeat split.
Qed.

(** ** Supervision *)

(** C6.  On a connected client whose status read succeeds,
    [check_supervision_status] returns one of the two literals
    [unsupervised] and [supervised], and [supervised] only when the
    supervised literal occurs in the reply: a reply holding the
    unsupervised literal, or neither literal, is reported as
    [unsupervised]. *)
Theorem supervision_status_is_conservative
  (s : State) (ses : Session) (xml : string) :
  session (self s) = Some ses ->
  reply ses (sent s) (Get (Some supervision_filter)) = inr xml ->
  let unsup := "<supervision-status>unsupervised</supervision-status>" in
  let sup := "<supervision-status>supervised</supervision-status>" in
  let result := fst (check_supervision_status env s) in
  (result = Returned (PyStr "unsupervised") \/ result = Returned (PyStr "supervised"))
  /\ (str_in unsup xml = true -> result = Returned (PyStr "unsupervised"))
  /\ (str_in unsup xml = false -> str_in sup xml = true ->
      result = Returned (PyStr "supervised"))
  /\ (str_in unsup xml = false -> str_in sup xml = false ->
      result = Returned (PyStr "unsupervised"))
  /\ (result = Returned (PyStr "supervised") -> str_in sup xml = true).
Proof.
  intros Hs Hr unsup sup result.
  assert (E : result
              = Returned (PyStr (if str_in unsup xml then "unsupervised"
                                 else if str_in sup xml then "supervised"
                                 else "unsupervised"))).
  { subst result. unfold check_supervision_status. enter Hs.
    unfold try_except, bind at 1. rewrite (call_ok _ _ _ _ Hs Hr).
    unfold bind at 1. saved. fold unsup sup.
    destruct (str_in unsup xml); [reflexivity|].
    destruct (str_in sup xml); reflexivity. }
  rewrite E. clear E.
  destruct (str_in unsup xml), (str_in sup xml);
    repeat split; auto; try discriminate.
Qed.

(** What the watchdog reset sends.  [reset_supervision_watchdog] takes
    no argument.  On a connected client it makes exactly one call, the
    dispatch of the watchdog-reset element, whose
    supervision-notification-interval field is the text 60000 and whose
    guard-timer-overhead field is the text 5. *)
Theorem watchdog_reset_carries_fixed_values (s : State) (ses : Session) :
  session (self s) = Some ses ->
  new_requests s (snd (reset_supervision_watchdog env s))
  = [Dispatch watchdog_reset_rpc]
  /\ watchdog_field "supervision-notification-interval" = Some "60000"
  /\ watchdog_field "guard-timer-overhead" = Some "5"
  /\ carries_config (mkWatchdogConfig 60000 5) watchdog_reset_rpc = true.
Proof.
  intros Hs. split; [|now vm_compute].
  unfold reset_supervision_watchdog. enter Hs. unfold try_except, bind at 1.
  unfold to_ele.
  destruct (reply ses (sent s) (Dispatch watchdog_reset_rpc)) as [e|xml] eqn:Hr.
  - rewrite (call_raises _ _ _ _ Hs Hr). now apply new_requests_app.
  - rewrite (call_ok _ _ _ _ Hs Hr). unfold print, bind.
    cbn [self sent stdout files]. saved. now apply new_requests_app.
Qed.

(** ** Connecting *)

(** C8, as the code has it.  When the connection attempt raises,
    [connect] catches the exception: it prints the failure, leaves
    [self.session] at [None] and returns normally.  No exception reaches
    the caller, and nothing is sent. *)
Theorem failed_connect_leaves_session_null (s : State) (e : Exn) :
  manager_connect env (host (self s)) (port (self s))
                  (username (self s)) (password (self s)) = inl e ->
  connect env s
  = (Returned PyNone,
     mkState (set_session (self s) None) (sent s)
             (stdout s ++ ["Failed to connect to RU: " ++ exn_msg e]) (files s))
  /\ session (self (snd (connect env s))) = None
  /\ connected (snd (connect env s)) = false
  /\ raises "ConnectionError" (fst (connect env s)) = false.
Proof.
  intros H.
  assert (E : connect env s
              = (Returned PyNone,
                 mkState (set_session (self s) None) (sent s)
                         (stdout s ++ ["Failed to connect to RU: " ++ exn_msg e])
                         (files s))).
  { unfold connect, try_except, bind at 1, get_self. rewrite H. reflexivity. }
  rewrite E. now repeat split.
Qed.

End Runs.

(** ** The theorems at concrete units *)

Section Instances.

Import Demo.

(** C3 at a unit with both carriers active, and at one with both
    inactive. *)
Lemma pair_change_noop_at_target_witness :
  connected on_air = true
  /\ both_are "ACTIVE" (fst (retrieve_carrier_status libs "A" "B" on_air)) = true
  /\ fst (activate_carriers libs "A" "B" on_air) = Returned PyNone
  /\ new_requests on_air (snd (activate_carriers libs "A" "B" on_air))
     = [Get (Some (status_filter "A" "B"))]
  /\ both_are "INACTIVE" (fst (retrieve_carrier_status libs "A" "B" off_air)) = true
  /\ new_requests off_air (snd (deactivate_carriers libs "A" "B" off_air))
     = [Get (Some (status_filter "A" "B"))].
Proof.
  assert (C1 : connected on_air = true) by reflexivity.
  assert (C2 : connected off_air = true) by reflexivity.
  assert (B1 : both_are "ACTIVE"
                 (fst (retrieve_carrier_status libs "A" "B" on_air)) = true)
    by (vm_compute; reflexivity).
  assert (B2 : both_are "INACTIVE"
                 (fst (retrieve_carrier_status libs "A" "B" off_air)) = true)
    by (vm_compute; reflexivity).
  destruct (pair_change_noop_at_target libs on_air "A" "B" C1) as [On _].
  destruct (pair_change_noop_at_target libs off_air "A" "B" C2) as [_ Off].
  destruct (On B1) as [R1 R2]. destruct (Off B2) as [_ R3].
  exact (conj C1 (conj B1 (conj R1 (conj R2 (conj B2 R3))))).
Defined.

(** C1.  The code departs from the claim, and from the docstring of
    [activate_carriers], which says both carriers are activated if they
    are currently inactive.  At a unit whose status reply shows TX
    carrier A active and RX carrier B inactive, the status is read as
    (ACTIVE, ACTIVE), so [activate_carriers] prints that both are
    already active and returns [None] after the read: no edit-config is
    sent and the RX change is never submitted.  [deactivate_carriers] at
    the same unit does send its one combined edit-config. *)
Lemma activation_skipped_with_rx_inactive :
  reply (radio tx_only_active) (sent half_on) (Get (Some (status_filter "A" "B")))
  = inr tx_only_active
  /\ str_in "<name>B</name><active>INACTIVE</active>" tx_only_active = true
  /\ fst (retrieve_carrier_status libs "A" "B" half_on)
     = Returned (PyTuple (PyStr "ACTIVE") (PyStr "ACTIVE"))
  /\ fst (activate_carriers libs "A" "B" half_on) = Returned PyNone
  /\ new_requests half_on (snd (activate_carriers libs "A" "B" half_on))
     = [Get (Some (status_filter "A" "B"))]
  /\ edit_configs
       (new_requests half_on (snd (activate_carriers libs "A" "B" half_on)))
     = []
  /\ last (stdout (snd (activate_carriers libs "A" "B" half_on))) EmptyString
     = "Both TX (A) and RX (B) array carriers are already ACTIVE."
  /\ new_requests half_on (snd (deactivate_carriers libs "A" "B" half_on))
     = [Get (Some (status_filter "A" "B"));
        EditConfig "running" (activation_payload "INACTIVE" "A" "B")].
Proof. vm_compute. repeat split. Qed.

(** C9 at a unit whose TX carrier is active and whose RX carrier is
    inactive: both are reported ACTIVE. *)
Lemma carrier_status_shares_active_flag_witness :
  session (self half_on) = Some (radio tx_only_active)
  /\ str_in (name_tag "A") tx_only_active = true
  /\ str_in (name_tag "B") tx_only_active = true
  /\ str_in (active_tag "ACTIVE") tx_only_active = true
  /\ str_in "<name>B</name><active>INACTIVE</active>" tx_only_active = true
  /\ fst (retrieve_carrier_status libs "A" "B" half_on)
     = Returned (PyTuple (PyStr "ACTIVE") (PyStr "ACTIVE")).
Proof.
  assert (T : str_in (name_tag "A") tx_only_active = true)
    by (vm_compute; reflexivity).
  assert (R : str_in (name_tag "B") tx_only_active = true)
    by (vm_compute; reflexivity).
  assert (A : str_in (active_tag "ACTIVE") tx_only_active = true)
    by (vm_compute; reflexivity).
  pose proof (carrier_status_shares_active_flag libs half_on
                (radio tx_only_active) "A" "B" tx_only_active
                eq_refl eq_refl T R A) as W.
  assert (I : str_in "<name>B</name><active>INACTIVE</active>" tx_only_active
               = true) by (vm_compute; reflexivity).
  exact (conj eq_refl (conj T (conj R (conj A (conj I W))))).
Defined.

(** C2 at a unit holding TX carrier A and RX carrier B: creating TX
    carrier A is a no-op, creating RX carrier A sends the create. *)
Lemma configure_is_idempotent_create_witness :
  session (self on_air) = Some (radio both_active)
  /\ str_in (name_tag "A") tx_list = true
  /\ str_in (name_tag "A") rx_list = false
  /\ new_requests on_air
       (snd (configure_tx_array_carrier libs "A" centre arfcn bandwidth gain on_air))
     = [Get (Some tx_carriers_filter)]
  /\ new_requests on_air
       (snd (configure_rx_array_carrier libs "A" centre arfcn bandwidth gain
               n_ta_offset on_air))
     = [Get (Some rx_carriers_filter);
        EditConfig "running"
          (rx_create_payload "A" centre arfcn bandwidth gain n_ta_offset)].
Proof.
  assert (P : str_in (name_tag "A") tx_list = true) by (vm_compute; reflexivity).
  assert (Q : str_in (name_tag "A") rx_list = false) by (vm_compute; reflexivity).
  destruct (configure_is_idempotent_create libs on_air (radio both_active) "A"
              tx_list rx_list centre arfcn bandwidth gain gain n_ta_offset
              eq_refl eq_refl eq_refl)
    as (T & _ & _ & R).
  destruct (T P) as (_ & T2 & _).
  exact (conj eq_refl (conj P (conj Q (conj T2 (R Q))))).
Defined.

(** C10 at a unit whose reads time out. *)
Lemma configure_raises_on_failed_read_witness :
  session (self silent) = Some (failing timeout_error)
  /\ reply (failing timeout_error) (sent silent) (Get (Some tx_carriers_filter))
     = inl timeout_error
  /\ fst (configure_tx_array_carrier libs "A" centre arfcn bandwidth gain silent)
     = Raised (TypeError "argument of type 'NoneType' is not iterable")
  /\ fst (configure_rx_array_carrier libs "B" centre arfcn bandwidth gain
            n_ta_offset silent)
     = Raised (TypeError "argument of type 'NoneType' is not iterable").
Proof.
  destruct (configure_raises_on_failed_read libs silent (failing timeout_error)
              "A" timeout_error timeout_error centre arfcn bandwidth gain gain
              n_ta_offset eq_refl eq_refl eq_refl)
    as (_ & _ & T & _).
  destruct (configure_raises_on_failed_read libs silent (failing timeout_error)
              "B" timeout_error timeout_error centre arfcn bandwidth gain gain
              n_ta_offset eq_refl eq_refl eq_refl)
    as (_ & _ & _ & R & _).
  exact (conj eq_refl (conj eq_refl (conj T R))).
Defined.

(** C6 at a unit that reports itself supervised. *)
Lemma supervision_status_is_conservative_witness :
  session (self supervised_unit) = Some (radio supervised_reply)
  /\ str_in "<supervision-status>unsupervised</supervision-status>" supervised_reply
     = false
  /\ str_in "<supervision-status>supervised</supervision-status>" supervised_reply
     = true
  /\ fst (check_supervision_status libs supervised_unit)
     = Returned (PyStr "supervised").
Proof.
  assert (U : str_in "<supervision-status>unsupervised</supervision-status>"
                supervised_reply = false) by (vm_compute; reflexivity).
  assert (S : str_in "<supervision-status>supervised</supervision-status>"
                supervised_reply = true) by (vm_compute; reflexivity).
  destruct (supervision_status_is_conservative libs supervised_unit
              (radio supervised_reply) supervised_reply eq_refl eq_refl)
    as (_ & _ & H & _).
  exact (conj eq_refl (conj U (conj S (H U S)))).
Defined.

(** C4 at a unit with no carriers. *)
Lemma delete_is_unconditional_witness :
  session (self bare) = Some (answering no_carriers)
  /\ new_requests bare
       (snd (delete_tx_array_carrier libs "A" centre arfcn bandwidth gain bare))
     = [EditConfig "running" (tx_delete_payload "A" centre arfcn bandwidth gain)]
  /\ fst (delete_tx_array_carrier libs "A" centre arfcn bandwidth gain bare)
     = Returned (PyReply no_carriers).
Proof.
  destruct (delete_is_unconditional libs bare (answering no_carriers) "A"
              centre arfcn bandwidth gain gain n_ta_offset eq_refl)
    as (T & _ & V & _).
  exact (conj eq_refl (conj T V)).
Defined.

(** C4 as claimed fails: the unit holds no carrier A, and deleting
    carrier A still sends the delete, with no read before it. *)
Lemma delete_of_absent_carrier_sends_rpc :
  fst (retrieve_tx_array_carrier_info libs bare) = Returned (PyStr no_carriers)
  /\ str_in (name_tag "A") no_carriers = false
  /\ sent (snd (delete_tx_array_carrier libs "A" centre arfcn bandwidth gain bare))
     = [EditConfig "running" (tx_delete_payload "A" centre arfcn bandwidth gain)]
  /\ sent (snd (delete_rx_array_carrier libs "A" centre arfcn bandwidth gain
                  n_ta_offset bare))
     = [EditConfig "running"
          (rx_delete_payload "A" centre arfcn bandwidth gain n_ta_offset)].
Proof. vm_compute. repeat split. Qed.

(** C5 at the client before [connect]. *)
Lemma no_session_call_returns_null_witness :
  connected idle = false
  /\ exists v line,
       run libs (OpActivateCarriers "A" "B") idle
       = (Returned v,
          mkState (self idle) (sent idle) (stdout idle ++ [line]) (files idle))
       /\ is_null v = true
       /\ new_requests idle (snd (run libs (OpActivateCarriers "A" "B") idle)) = []
       /\ raises "NotConnectedError"
            (fst (run libs (OpActivateCarriers "A" "B") idle)) = false.
Proof.
  exact (conj eq_refl
           (no_session_call_returns_null libs (OpActivateCarriers "A" "B") idle
              eq_refl)).
Defined.

(** C5 as claimed fails: before [connect], the status query and the
    carrier creation return [None] after printing a line; nothing is
    raised. *)
Lemma call_without_session_returns_none :
  connected idle = false
  /\ check_supervision_status libs idle
     = (Returned PyNone, mkState (self idle) [] [no_session_msg] [])
  /\ raises "NotConnectedError" (fst (check_supervision_status libs idle)) = false
  /\ configure_tx_array_carrier libs "A" centre arfcn bandwidth gain idle
     = (Returned PyNone, mkState (self idle) [] [no_session_msg] []).
Proof. vm_compute. repeat split. Qed.

(** The watchdog reset at a connected unit. *)
Lemma watchdog_reset_carries_fixed_values_witness :
  session (self on_air) = Some (radio both_active)
  /\ new_requests on_air (snd (reset_supervision_watchdog libs on_air))
     = [Dispatch watchdog_reset_rpc]
  /\ carries_config (mkWatchdogConfig 60000 5) watchdog_reset_rpc = true.
Proof.
  destruct (watchdog_reset_carries_fixed_values libs on_air (radio both_active)
              eq_refl)
    as (R & _ & _ & C).
  exact (conj eq_refl (conj R C)).
Defined.

(** C7.  The code departs from the claim, and from its own docstring,
    which says the reset is sent with the provided parameters: the
    method has no parameter, and for a caller whose configuration is
    interval 30000 and overhead 3 the one reset that is sent carries
    60000 and 5, not the configured values. *)
Lemma watchdog_reset_ignores_config :
  sent (snd (reset_supervision_watchdog libs on_air)) = [Dispatch watchdog_reset_rpc]
  /\ carries_config half_minute watchdog_reset_rpc = false
  /\ watchdog_field "supervision-notification-interval" = Some "60000"
  /\ watchdog_field "guard-timer-overhead" = Some "5".
Proof. vm_compute. repeat split. Qed.

(** C8 at an unreachable unit. *)
Lemma failed_connect_leaves_session_null_witness :
  manager_connect unreachable (host (self idle)) (port (self idle))
                  (username (self idle)) (password (self idle)) = inl ssh_error
  /\ session (self (snd (connect unreachable idle))) = None
  /\ fst (connect unreachable idle) = Returned PyNone.
Proof.
  destruct (failed_connect_leaves_session_null unreachable idle ssh_error eq_refl)
    as (E & N & _).
  exact (conj eq_refl (conj N (f_equal fst E))).
Defined.

(** C8 as claimed fails: the connection attempt raises, and [connect]
    returns [None]; no [ConnectionError] reaches the caller. *)
Lemma failed_connect_is_swallowed :
  manager_connect unreachable (host (self idle)) (port (self idle))
                  (username (self idle)) (password (self idle)) = inl ssh_error
  /\ fst (connect unreachable idle) = Returned PyNone
  /\ raises "ConnectionError" (fst (connect unreachable idle)) = false
  /\ stdout (snd (connect unreachable idle))
     = ["Failed to connect to RU: Could not open socket to 10.1.8.14:830"].
Proof. vm_compute. repeat split. Qed.

End Instances.

(** * Properties of every method *)

(** Unfolding a method down to the combinators it is built from. *)
Ltac unfold_method :=
  unfold check_supervision_status, subscribe_to_netconf_notifications,
    reset_supervision_watchdog, get_available_streams, receive_notifications,
    configure_call_home, retrieve_tx_array_carrier_info,
    retrieve_rx_array_carrier_info, configure_tx_array_carrier,
    configure_rx_array_carrier, delete_tx_array_carrier, delete_rx_array_carrier,
    get_running_config, retrieve_carrier_status, activate_carriers,
    deactivate_carriers, retrieve_ru_states, get_all_state_data, py_in, unpack2;
  cbv zeta.

Ltac saved_in :=
  match goal with
  | |- context [save_to_file ?env ?x ?m ?st] =>
      let line := fresh "line" in
      let fs := fresh "fs" in
      let E := fresh "E" in
      destruct (save_to_file_run env x m st) as (line & fs & E);
      rewrite E; clear E; cbn [self sent stdout files]
  end.

(** ** Agreement on the wire *)

Section SameWire.

Lemma wire_eq (s1 s2 : State) :
  wire s1 = wire s2 -> self s1 = self s2 /\ sent s1 = sent s2.
Proof. unfold wire. intros H. now inversion H. Qed.

Lemma same_wire_ret {A} (a : A) : same_wire (ret a) (ret a).
Proof. intros s1 s2 H. now split. Qed.

Lemma same_wire_raise {A} (e : Exn) : same_wire (@raise A e) (raise e).
Proof. intros s1 s2 H. now split. Qed.

Lemma same_wire_bind {A B} (m1 m2 : M A) (k1 k2 : A -> M B) :
  same_wire m1 m2 ->
  (forall a, same_wire (k1 a) (k2 a)) ->
  same_wire (bind m1 k1) (bind m2 k2).
Proof.
  intros Hm Hk s1 s2 H. unfold bind.
  destruct (Hm s1 s2 H) as [Ho Hw].
  destruct (m1 s1) as [o1 t1], (m2 s2) as [o2 t2]. cbn [fst snd] in *.
  subst o2. destruct o1 as [a|e]; [now apply Hk | now split].
Qed.

Lemma same_wire_try {A} (b1 b2 : M A) (h1 h2 : Exn -> M A) :
  same_wire b1 b2 ->
  (forall e, same_wire (h1 e) (h2 e)) ->
  same_wire (try_except b1 h1) (try_except b2 h2).
Proof.
  intros Hb Hh s1 s2 H. unfold try_except.
  destruct (Hb s1 s2 H) as [Ho Hw].
  destruct (b1 s1) as [o1 t1], (b2 s2) as [o2 t2]. cbn [fst snd] in *.
  subst o2. destruct o1 as [a|e]; [now split | now apply Hh].
Qed.

Lemma same_wire_print (a b : string) : same_wire (print a) (print b).
Proof. intros s1 s2 H. now split. Qed.

Lemma same_wire_call (r : Request) : same_wire (call r) (call r).
Proof.
  intros s1 s2 H. destruct (wire_eq _ _ H) as [Hself Hsent].
  unfold call. rewrite Hself, Hsent.
  destruct (session (self s2)) as [ses|]; [|now split].
  destruct (reply ses (sent s2) r); split; try reflexivity;
    unfold wire; cbn [self sent snd]; now rewrite Hself, Hsent.
Qed.

Lemma same_wire_take (t : Z) : same_wire (take_notification t) (take_notification t).
Proof.
  intros s1 s2 H. destruct (wire_eq _ _ H) as [Hself Hsent].
  unfold take_notification. rewrite Hself, Hsent.
  destruct (session (self s2)) as [ses|]; [|now split].
  destruct (notifications ses (sent s2)); split; try reflexivity;
    unfold wire; cbn [self sent snd]; now rewrite Hself, Hsent.
Qed.

Lemma same_wire_save (env1 env2 : Env) (x m : string) :
  same_wire (save_to_file env1 x m) (save_to_file env2 x m).
Proof.
  intros s1 s2 H.
  destruct (save_to_file_run env1 x m s1) as (l1 & f1 & ->).
  destruct (save_to_file_run env2 x m s2) as (l2 & f2 & ->).
  split; [reflexivity | exact H].
Qed.

Lemma same_wire_guarded (v : value) (b1 b2 : M value) :
  same_wire b1 b2 -> same_wire (guarded v b1) (guarded v b2).
Proof.
  intros Hb s1 s2 H. destruct (wire_eq _ _ H) as [Hself _].
  unfold guarded, connected. rewrite Hself.
  destruct (session (self s2)); [now apply Hb | now split].
Qed.

Lemma same_wire_for_each {A} (xs : list A) (b1 b2 : A -> M unit) :
  (forall x, same_wire (b1 x) (b2 x)) ->
  same_wire (for_each xs b1) (for_each xs b2).
Proof.
  intros Hb. induction xs as [|x xs IH]; cbn [for_each].
  - apply same_wire_ret.
  - apply same_wire_bind; [apply Hb | intros _; exact IH].
Qed.

Lemma same_wire_close : same_wire close_connection close_connection.
Proof.
  intros s1 s2 H. destruct (wire_eq _ _ H) as [Hself _].
  unfold close_connection, connected. rewrite Hself.
  destruct (session (self s2)).
  - exact (same_wire_bind _ _ _ _ (same_wire_call _)
             (fun _ => same_wire_bind _ _ _ _ (same_wire_print _ _)
                         (fun _ => same_wire_ret _))
             s1 s2 H).
  - now split.
Qed.

Lemma same_wire_stop (stop : option Exn) :
  same_wire (stop_iteration stop) (stop_iteration stop).
Proof. destruct stop; [apply same_wire_raise | apply same_wire_ret]. Qed.

(** [save_capabilities] makes no call on the session and leaves the
    client object alone, whatever the file system does. *)
Lemma save_capabilities_wire (env : Env) (s : State) :
  wire (snd (save_capabilities env s)) = wire s.
Proof.
  unfold save_capabilities, guarded, bind, get_self, open_file, write_file, print, ret.
  destruct (connected s); [|reflexivity].
  destruct (session (self s)); [|reflexivity].
  destruct (fs_open env _ _ _); [reflexivity|]. cbn [files].
  destruct (fs_write env _ _ _); reflexivity.
Qed.

Ltac wire_step :=
  match goal with
  | |- same_wire (save_to_file _ _ _) _ => apply same_wire_save
  | |- same_wire (stop_iteration _) _ => apply same_wire_stop
  | |- same_wire close_connection _ => apply same_wire_close
  | |- same_wire (guarded _ _) _ => apply same_wire_guarded
  | |- same_wire (try_except _ _) _ => apply same_wire_try
  | |- same_wire (bind _ _) _ => apply same_wire_bind
  | |- same_wire (call _) _ => apply same_wire_call
  | |- same_wire (take_notification _) _ => apply same_wire_take
  | |- same_wire (print _) _ => apply same_wire_print
  | |- same_wire (ret _) _ => apply same_wire_ret
  | |- same_wire (raise _) _ => apply same_wire_raise
  | |- same_wire (for_each _ _) _ => apply same_wire_for_each
  | |- same_wire (if ?c then _ else _) _ => destruct c
  | |- same_wire (match ?a with _ => _ end) _ => destruct a
  | |- forall _, _ => intro
  end.

(** X1.  Logging is transparent.  For every method and arguments, the
    calls made on the session and the client object left behind depend
    only on the client object and the calls made so far: they are the
    same whatever was printed or written before, whatever the XML
    pretty-printer does with the replies and whether or not files can
    be opened and written.  The same holds of the outcome (value
    returned or exception raised) of every method but
    [save_capabilities], whose file operations are outside any [try]. *)
Theorem logging_is_transparent
  (env1 env2 : Env) (op : Operation) (s1 s2 : State) :
  self s1 = self s2 ->
  sent s1 = sent s2 ->
  (op <> OpSaveCapabilities -> fst (run env1 op s1) = fst (run env2 op s2))
  /\ self (snd (run env1 op s1)) = self (snd (run env2 op s2))
  /\ sent (snd (run env1 op s1)) = sent (snd (run env2 op s2)).
Proof.
  intros Hself Hsent.
  assert (H : wire s1 = wire s2) by (unfold wire; now rewrite Hself, Hsent).
  assert (C : op = OpSaveCapabilities \/ op <> OpSaveCapabilities)
    by (destruct op; auto; right; discriminate).
  destruct C as [-> | N].
  - cbn [run].
    pose proof (save_capabilities_wire env1 s1) as W1.
    pose proof (save_capabilities_wire env2 s2) as W2.
    rewrite H, <- W2 in W1. apply wire_eq in W1.
    split; [intros N; now elim N | exact W1].
  - assert (W : same_wire (run env1 op) (run env2 op)).
    { destruct op; cbn [run]; try (now elim N);
        repeat first [wire_step | progress unfold_method]. }
    destruct (W s1 s2 H) as [Ho Hw]. apply wire_eq in Hw. tauto.
Qed.

End SameWire.

(** ** What the methods leave untouched *)

Section Extending.

Lemma extends_refl (s : State) : extends s s.
Proof.
  repeat split; exists []; now rewrite app_nil_r.
Qed.

Lemma extends_trans (s t u : State) : extends s t -> extends t u -> extends s u.
Proof.
  intros (A1 & (r1 & A2) & (o1 & A3) & (f1 & A4))
         (B1 & (r2 & B2) & (o2 & B3) & (f2 & B4)).
  repeat split.
  - congruence.
  - exists (r1 ++ r2)%list. now rewrite B2, A2, app_assoc.
  - exists (o1 ++ o2)%list. now rewrite B3, A3, app_assoc.
  - exists (f1 ++ f2)%list. now rewrite B4, A4, app_assoc.
Qed.

Lemma extending_ret {A} (a : A) : extending (ret a).
Proof. intros s. apply extends_refl. Qed.

Lemma extending_raise {A} (e : Exn) : extending (@raise A e).
Proof. intros s. apply extends_refl. Qed.

Lemma extending_get_self : extending get_self.
Proof. intros s. apply extends_refl. Qed.

Lemma extending_print (line : string) : extending (print line).
Proof.
  intros s. cbn. repeat split; cbn; try (exists []; now rewrite app_nil_r).
  now exists [line].
Qed.

Lemma extending_write (env : Env) (path chunk : string) :
  extending (write_file env path chunk).
Proof.
  intros s. unfold write_file. destruct (fs_write env _ _ _); [apply extends_refl|].
  cbn. repeat split; cbn; try (exists []; now rewrite app_nil_r).
  now exists [Wrote path chunk].
Qed.

Lemma extending_open (env : Env) (path mode : string) :
  extending (open_file env path mode).
Proof.
  intros s. unfold open_file. destruct (fs_open env _ _ _); [apply extends_refl|].
  cbn. repeat split; cbn; try (exists []; now rewrite app_nil_r).
  now exists [Opened path mode].
Qed.

Lemma extending_stop (stop : option Exn) : extending (stop_iteration stop).
Proof. destruct stop; intros s; apply extends_refl. Qed.

Lemma extending_call (r : Request) : extending (call r).
Proof.
  intros s. unfold call. destruct (session (self s)) as [ses|].
  - destruct (reply ses (sent s) r); cbn;
      (repeat split; cbn; try (exists []; now rewrite app_nil_r); now exists [r]).
  - apply extends_refl.
Qed.

Lemma extending_take (t : Z) : extending (take_notification t).
Proof.
  intros s. unfold take_notification. destruct (session (self s)) as [ses|].
  - destruct (notifications ses (sent s)); cbn;
      (repeat split; cbn; try (exists []; now rewrite app_nil_r);
       now exists [TakeNotification t]).
  - apply extends_refl.
Qed.

Lemma extending_bind {A B} (m : M A) (k : A -> M B) :
  extending m -> (forall a, extending (k a)) -> extending (bind m k).
Proof.
  intros Hm Hk s. unfold bind. specialize (Hm s).
  destruct (m s) as [[a|e] t]; cbn [snd] in *; [|exact Hm].
  exact (extends_trans _ _ _ Hm (Hk a t)).
Qed.

Lemma extending_try {A} (b : M A) (h : Exn -> M A) :
  extending b -> (forall e, extending (h e)) -> extending (try_except b h).
Proof.
  intros Hb Hh s. unfold try_except. specialize (Hb s).
  destruct (b s) as [[a|e] t]; cbn [snd] in *; [exact Hb|].
  exact (extends_trans _ _ _ Hb (Hh e t)).
Qed.

Lemma extending_guarded (v : value) (body : M value) :
  extending body -> extending (guarded v body).
Proof.
  intros Hb s. unfold guarded. destruct (connected s); [apply Hb|].
  apply (extending_bind _ _ (extending_print _) (fun _ => extending_ret _)).
Qed.

Lemma extending_for_each {A} (xs : list A) (body : A -> M unit) :
  (forall x, extending (body x)) -> extending (for_each xs body).
Proof.
  intros Hb. induction xs as [|x xs IH]; cbn [for_each].
  - apply extending_ret.
  - apply extending_bind; [apply Hb | intros _; exact IH].
Qed.

Ltac extend_step :=
  match goal with
  | |- extending (guarded _ _) => apply extending_guarded
  | |- extending (try_except _ _) => apply extending_try
  | |- extending (bind _ _) => apply extending_bind
  | |- extending (call _) => apply extending_call
  | |- extending (take_notification _) => apply extending_take
  | |- extending (print _) => apply extending_print
  | |- extending (write_file _ _ _) => apply extending_write
  | |- extending (open_file _ _ _) => apply extending_open
  | |- extending (stop_iteration _) => apply extending_stop
  | |- extending get_self => apply extending_get_self
  | |- extending (ret _) => apply extending_ret
  | |- extending (raise _) => apply extending_raise
  | |- extending (for_each _ _) => apply extending_for_each
  | |- extending (if ?c then _ else _) => destruct c
  | |- extending (match ?a with _ => _ end) => destruct a
  | |- forall _, _ => intro
  end.

Lemma extending_close : extending close_connection.
Proof.
  intros s. unfold close_connection. destruct (connected s).
  - apply (extending_bind _ _ (extending_call _)). intros _.
    apply (extending_bind _ _ (extending_print _)). intros _. apply extending_ret.
  - apply (extending_bind _ _ (extending_print _)). intros _. apply extending_ret.
Qed.

Lemma run_is_extending (env : Env) (op : Operation) : extending (run env op).
Proof.
  destruct op; cbn [run]; try apply extending_close;
    unfold save_capabilities;
    repeat first [extend_step
                 | progress unfold save_to_file
                 | progress unfold_method].
Qed.

(** X2.  No method changes the client object, so [self.session] is
    never set or cleared by anything but [connect]; in particular it
    survives [close_connection].  The calls made, the lines printed and
    the file writes are only ever added to. *)
Theorem methods_only_extend_the_state (env : Env) (op : Operation) (s : State) :
  self (snd (run env op s)) = self s
  /\ (exists rs, sent (snd (run env op s)) = (sent s ++ rs)%list)
  /\ (exists out, stdout (snd (run env op s)) = (stdout s ++ out)%list)
  /\ (exists fs, files (snd (run env op s)) = (files s ++ fs)%list).
Proof. exact (run_is_extending env op s). Qed.

End Extending.

(** ** Which methods can raise *)

Section Returning.

Lemma returning_ret {A} (a : A) : returning (ret a).
Proof. intros s. now exists a. Qed.

Lemma returning_print (line : string) : returning (print line).
Proof. intros s. now exists tt. Qed.

Lemma returning_bind {A B} (m : M A) (k : A -> M B) :
  returning m -> (forall a, returning (k a)) -> returning (bind m k).
Proof.
  intros Hm Hk s. unfold bind. destruct (Hm s) as [a Ha].
  destruct (m s) as [o t]. cbn [fst] in Ha. subst o. apply Hk.
Qed.

(** A [try] whose handler always returns always returns, whatever its
    body does. *)
Lemma returning_try {A} (b : M A) (h : Exn -> M A) :
  (forall e, returning (h e)) -> returning (try_except b h).
Proof.
  intros Hh s. unfold try_except.
  destruct (b s) as [[a|e] t]; [now exists a | apply Hh].
Qed.

Lemma returning_guarded (v : value) (body : M value) :
  returning body -> returning (guarded v body).
Proof.
  intros Hb s. unfold guarded. destruct (connected s); [apply Hb | now exists v].
Qed.

Lemma returning_save (env : Env) (x m : string) : returning (save_to_file env x m).
Proof.
  intros s. destruct (save_to_file_run env x m s) as (l & f & ->). now exists tt.
Qed.

Lemma returning_pair_change (env : Env) (tx rx : string) :
  returning (activate_carriers env tx rx)
  /\ returning (deactivate_carriers env tx rx).
Proof.
  split; intros s; destruct (session (self s)) as [ses|] eqn:Hs.
  - destruct (activate_carriers_run env s ses tx rx Hs) as (v & out & fs & E & _).
    rewrite E. now exists v.
  - unfold activate_carriers, guarded, connected. rewrite Hs. now eexists.
  - destruct (deactivate_carriers_run env s ses tx rx Hs) as (v & out & fs & E & _).
    rewrite E. now exists v.
  - unfold deactivate_carriers, guarded, connected. rewrite Hs. now eexists.
Qed.

Ltac return_step :=
  match goal with
  | |- returning (save_to_file _ _ _) => apply returning_save
  | |- returning (guarded _ _) => apply returning_guarded
  | |- returning (try_except _ _) => apply returning_try
  | |- returning (bind _ _) => apply returning_bind
  | |- returning (print _) => apply returning_print
  | |- returning (ret _) => apply returning_ret
  | |- forall _, _ => intro
  end.

(** X3.  Apart from [save_capabilities], [configure_tx_array_carrier],
    [configure_rx_array_carrier] and [close_connection], no method ever
    raises: whatever the session, the pretty-printer and the file system
    do (exceptions included) and whether or not a session exists, the
    call returns a value. *)
Theorem transport_errors_do_not_escape (env : Env) (op : Operation) (s : State) :
  catches_everything op = true ->
  exists v, fst (run env op s) = Returned v.
Proof.
  intros H.
  assert (R : returning (run env op)).
  { destruct op; cbn [run]; try discriminate H;
      try apply (proj1 (returning_pair_change env tx_name rx_name));
      try apply (proj2 (returning_pair_change env tx_name rx_name));
      unfold check_supervision_status, subscribe_to_netconf_notifications,
        reset_supervision_watchdog, get_available_streams, receive_notifications,
        configure_call_home, retrieve_tx_array_carrier_info,
        retrieve_rx_array_carrier_info, delete_tx_array_carrier,
        delete_rx_array_carrier, get_running_config, retrieve_carrier_status,
        retrieve_ru_states, get_all_state_data;
      cbv zeta; repeat return_step. }
  exact (R s).
Qed.

(** X4.  [close_connection] on a connected client makes exactly the
    [close_session] call, outside any [try]: an exception raised by the
    call reaches the caller and nothing is printed.  When the call
    succeeds the method prints and returns [None].  Either way
    [self.session] is kept, so the client still counts as connected. *)
Theorem close_connection_keeps_session_and_can_raise (s : State) (ses : Session) :
  session (self s) = Some ses ->
  new_requests s (snd (close_connection s)) = [CloseSession]
  /\ connected (snd (close_connection s)) = true
  /\ match reply ses (sent s) CloseSession with
     | inl e =>
         fst (close_connection s) = Raised e
         /\ stdout (snd (close_connection s)) = stdout s
     | inr _ =>
         fst (close_connection s) = Returned PyNone
         /\ stdout (snd (close_connection s))
            = (stdout s ++ ["NETCONF session closed."])%list
     end.
Proof.
  intros Hs. unfold close_connection, connected at 1 2 3 4 5 6. rewrite Hs.
  unfold bind at 1 3 5 7 9 11.
  destruct (reply ses (sent s) CloseSession) as [e|xml] eqn:Hr.
  - rewrite (call_raises _ _ _ _ Hs Hr). cbn [fst snd].
    unfold connected. cbn [self stdout]. rewrite Hs.
    repeat split. now apply new_requests_app.
  - rewrite (call_ok _ _ _ _ Hs Hr). unfold print, bind, ret. cbn [fst snd].
    unfold connected. cbn [self stdout]. rewrite Hs.
    repeat split. now apply new_requests_app.
Qed.

End Returning.

(** ** One call per method *)

Section OneCall.

Lemma quiet_ret {A} (a : A) : quiet (ret a).
Proof. intros s. split; [now exists a | reflexivity]. Qed.

Lemma quiet_print (line : string) : quiet (print line).
Proof. intros s. split; [now exists tt | reflexivity]. Qed.

Lemma quiet_save (env : Env) (x m : string) : quiet (save_to_file env x m).
Proof.
  intros s. destruct (save_to_file_run env x m s) as (l & f & ->).
  split; [now exists tt | reflexivity].
Qed.

Lemma quiet_bind {A B} (m : M A) (k : A -> M B) :
  quiet m -> (forall a, quiet (k a)) -> quiet (bind m k).
Proof.
  intros Hm Hk s. unfold bind. destruct (Hm s) as [[a Ha] Hw].
  destruct (m s) as [o t]. cbn [fst snd] in *. subst o.
  destruct (Hk a t) as [R W]. split; [exact R | congruence].
Qed.

Lemma quiet_for_each {A} (xs : list A) (body : A -> M unit) :
  (forall x, quiet (body x)) -> quiet (for_each xs body).
Proof.
  intros Hb. induction xs as [|x xs IH]; cbn [for_each].
  - apply quiet_ret.
  - apply quiet_bind; [apply Hb | intros _; exact IH].
Qed.

Lemma bind_quiet_fst {A B} (m : M A) (k : A -> M B) (v : B) (t : State) :
  quiet m ->
  (forall a t', fst (k a t') = Returned v) ->
  fst (bind m k t) = Returned v.
Proof.
  intros Hm Hk. unfold bind. destruct (Hm t) as [[a Ha] _].
  destruct (m t) as [o t']. cbn [fst] in Ha. subst o. apply Hk.
Qed.

Ltac quiet_step :=
  match goal with
  | |- quiet (save_to_file _ _ _) => apply quiet_save
  | |- quiet (bind _ _) => apply quiet_bind
  | |- quiet (print _) => apply quiet_print
  | |- quiet (ret _) => apply quiet_ret
  | |- quiet (for_each _ _) => apply quiet_for_each
  | |- quiet (if ?c then _ else _) => destruct c
  | |- forall _, _ => intro
  end.

(** A [try] around one session call whose continuation and handler are
    quiet: the call is the only one made, the handler decides the result
    when the call raises and the continuation when it returns. *)
Lemma try_one_call
  (r : Request) (K : string -> M value) (H : Exn -> M value)
  (s : State) (ses : Session) :
  session (self s) = Some ses ->
  (forall x, quiet (K x)) ->
  (forall e, quiet (H e)) ->
  let after := mkState (self s) (sent s ++ [r]) (stdout s) (files s) in
  wire (snd (try_except (bind (call r) K) H s)) = (self s, (sent s ++ [r])%list)
  /\ fst (try_except (bind (call r) K) H s)
     = match reply ses (sent s) r with
       | inl e => fst (H e after)
       | inr xml => fst (K xml after)
       end.
Proof.
  intros Hs HK HH after. unfold try_except, bind.
  destruct (reply ses (sent s) r) as [e|xml] eqn:Hr.
  - rewrite (call_raises _ _ _ _ Hs Hr). fold after.
    destruct (HH e after) as [_ W]. split; [exact W | reflexivity].
  - rewrite (call_ok _ _ _ _ Hs Hr). fold after.
    destruct (HK xml after) as [[v R] W].
    destruct (K xml after) as [o t]. cbn [fst snd] in *. subst o.
    split; [exact W | reflexivity].
Qed.

(** What a method made of such a [try] does on a connected client. *)
Lemma one_call_method
  (env : Env) (op : Operation) (r : Request) (s : State) (ses : Session) :
  session (self s) = Some ses ->
  single_request op = Some r ->
  op <> OpReceiveNotifications ->
  op <> OpCloseConnection ->
  exists (K : string -> M value) (H : Exn -> M value),
    run env op s = try_except (bind (call r) K) H s
    /\ (forall x, quiet (K x))
    /\ (forall e, quiet (H e))
    /\ (forall e t, exists pre v,
           H e t = (Returned v,
                    mkState (self t) (sent t) (stdout t ++ [pre ++ exn_msg e]) (files t))
           /\ is_null v = true)
    /\ (forall xml t v, handed_back op xml = Some v -> fst (K xml t) = Returned v).
Proof.
  intros Hs Hr N1 N2.
  destruct op; cbn [single_request] in Hr; try discriminate Hr;
    try (now elim N1); try (now elim N2);
    injection Hr as <-; cbn [run handed_back]; unfold_method;
    unfold guarded, connected; rewrite ?Hs; unfold to_ele;
    (do 2 eexists; split; [reflexivity|]);
    (split; [repeat quiet_step|]);
    (split; [repeat quiet_step|]);
    (split; [intros e t; do 2 eexists; split; reflexivity|]);
    intros xml t v Hv; try discriminate Hv; injection Hv as <-;
    repeat (apply bind_quiet_fst; [repeat quiet_step | intros ? ?]);
    reflexivity.
Qed.

Lemma save_to_file_line (env : Env) (x m : string) (s : State) :
  exists line fs,
    save_to_file env x m s
    = (Returned tt, mkState (self s) (sent s) (stdout s ++ [line]) fs)
    /\ is_save_line (response_file (self s)) line.
Proof.
  unfold save_to_file, is_save_line, try_except, bind, get_self, open_file,
    write_file, print, ret, raise.
  destruct (toprettyxml env x) as [e|pretty]; cbn [fst snd self sent stdout files];
    [do 2 eexists; split; [reflexivity | right; now exists e]|].
  destruct (fs_open env _ _ _) as [e|]; cbn [fst snd self sent stdout files];
    [do 2 eexists; split; [reflexivity | right; now exists e]|].
  destruct (String.eqb m EmptyString); cbn [fst snd self sent stdout files];
    repeat match goal with
           | |- context [fs_write env ?j ?p ?c] =>
               let e := fresh "e" in
               destruct (fs_write env j p c) as [e|];
               cbn [fst snd self sent stdout files];
               [do 2 eexists; split; [reflexivity | right; now exists e]|]
           end;
    do 2 eexists; split; try reflexivity; now left.
Qed.

Lemma notifications_loop (env : Env) (ns : list string) (s : State) :
  exists saved fs,
    length saved = length ns
    /\ Forall (is_save_line (response_file (self s))) saved
    /\ for_each ns
         (fun notification_xml =>
            print ("Received Notification: " ++ notification_xml) ;;
            save_to_file env notification_xml "Supervision Notification Received") s
       = (Returned tt,
          mkState (self s) (sent s) (stdout s ++ notification_lines ns saved) fs).
Proof.
  revert s. induction ns as [|x ns IH]; intros s; cbn [for_each].
  - exists [], (files s). repeat split; [constructor|].
    unfold ret, notification_lines. cbn. rewrite app_nil_r. now destruct s.
  - unfold bind at 1. unfold bind at 1, print at 1.
    match goal with |- context [save_to_file env ?a ?b ?st] =>
      destruct (save_to_file_line env a b st) as (line & fs & E & L); rewrite E; clear E
    end.
    cbn [self sent stdout files] in *.
    match goal with |- context [for_each ns ?body ?st] =>
      destruct (IH st) as (saved & fs' & Hlen & Hall & E); rewrite E; clear E
    end.
    cbn [self sent stdout files] in *. exists (line :: saved), fs'.
    split; [cbn; now rewrite Hlen|]. split; [now constructor|].
    unfold notification_lines. cbn [combine flat_map fst snd].
    now rewrite <- !app_assoc.
Qed.

Lemma bind_print_run {B} (line : string) (k : unit -> M B) (s : State) :
  bind (print line) k s
  = k tt (mkState (self s) (sent s) (stdout s ++ [line]) (files s)).
Proof. reflexivity. Qed.

Lemma take_notification_run (t : Z) (s : State) (ses : Session) :
  session (self s) = Some ses ->
  take_notification t s
  = (match notifications ses (sent s) with
     | inl e => Raised e
     | inr iteration => Returned iteration
     end,
     mkState (self s) (sent s ++ [TakeNotification t]) (stdout s) (files s)).
Proof.
  intros Hs. unfold take_notification. rewrite Hs.
  now destruct (notifications ses (sent s)).
Qed.

Lemma receive_notifications_run (env : Env) (s : State) (ses : Session) :
  session (self s) = Some ses ->
  match notifications ses (sent s) with
  | inl e =>
      receive_notifications env s
      = (Returned PyNone,
         mkState (self s) (sent s ++ [TakeNotification 10])
                 (stdout s ++ ["Waiting for notifications...";
                               "Failed to receive notifications: " ++ exn_msg e])
                 (files s))
  | inr (ns, stop) =>
      exists saved fs,
        length saved = length ns
        /\ Forall (is_save_line (response_file (self s))) saved
        /\ receive_notifications env s
           = (Returned PyNone,
              mkState (self s) (sent s ++ [TakeNotification 10])
                      (stdout s
                       ++ "Waiting for notifications..."
                          :: notification_lines ns saved
                          ++ match stop with
                             | Some e =>
                                 ["Failed to receive notifications: " ++ exn_msg e]
                             | None => []
                             end)
                      fs)
  end.
Proof.
  intros Hs.
  assert (E0 : receive_notifications env s
               = try_except
                   (iteration <- take_notification 10 ;;
                    for_each (fst iteration)
                      (fun notification_xml =>
                         print ("Received Notification: " ++ notification_xml) ;;
                         save_to_file env notification_xml
                           "Supervision Notification Received") ;;
                    stop_iteration (snd iteration) ;;
                    ret PyNone)
                   (fun e =>
                      print ("Failed to receive notifications: " ++ exn_msg e) ;;
                      ret PyNone)
                   (mkState (self s) (sent s)
                            (stdout s ++ ["Waiting for notifications..."]) (files s))).
  { unfold receive_notifications, guarded, connected. rewrite Hs.
    now rewrite bind_print_run. }
  set (t := mkState (self s) (sent s)
                    (stdout s ++ ["Waiting for notifications..."]) (files s)) in E0.
  assert (Ht : session (self t) = Some ses) by exact Hs.
  pose proof (take_notification_run 10 t ses Ht) as T.
  change (sent t) with (sent s) in T.
  destruct (notifications ses (sent s)) as [e|[ns stop]].
  - rewrite E0. unfold try_except, bind at 1. rewrite T.
    unfold print, bind, ret. cbn [self sent stdout files t].
    now rewrite <- app_assoc.
  - match type of T with _ = (_, ?u) => set (t1 := u) in T end.
    destruct (notifications_loop env ns t1) as (saved & fs & Hlen & Hall & E).
    exists saved, fs. split; [exact Hlen|]. split; [exact Hall|].
    rewrite E0. unfold try_except, bind at 1. rewrite T. cbn [fst snd].
    unfold bind at 1. rewrite E.
    destruct stop as [e|]; unfold stop_iteration, bind, raise, print, ret;
      cbn [self sent stdout files t t1]; rewrite <- !app_assoc; cbn [app];
      rewrite ?app_nil_r; reflexivity.
Qed.

(** X5.  On a connected client each of the fifteen single-call methods
    makes exactly its one call on the session, whatever the session
    answers: a reply, or an exception.  Nothing is retried and nothing
    else is sent. *)
Theorem single_call_methods_call_once
  (env : Env) (op : Operation) (r : Request) (s : State) :
  connected s = true ->
  single_request op = Some r ->
  new_requests s (snd (run env op s)) = [r].
Proof.
  intros Hc Hr. destruct (connected_session s Hc) as [ses Hs].
  assert (Hop : op = OpReceiveNotifications \/ op = OpCloseConnection
                \/ (op <> OpReceiveNotifications /\ op <> OpCloseConnection)).
  { destruct op; auto; right; right; split; discriminate. }
  destruct Hop as [-> | [-> | [N1 N2]]].
  - injection Hr as <-. cbn [run].
    pose proof (receive_notifications_run env s ses Hs) as R.
    destruct (notifications ses (sent s)) as [e|[ns stop]].
    + rewrite R. now apply new_requests_app.
    + destruct R as (saved & fs & _ & _ & E). rewrite E. now apply new_requests_app.
  - injection Hr as <-. cbn [run].
    unfold close_connection. rewrite Hc. unfold bind at 1.
    destruct (reply ses (sent s) CloseSession) as [e|xml] eqn:Hq.
    + rewrite (call_raises _ _ _ _ Hs Hq). now apply new_requests_app.
    + rewrite (call_ok _ _ _ _ Hs Hq). now apply new_requests_app.
  - destruct (one_call_method env op r s ses Hs Hr N1 N2)
      as (K & H & E & HK & HH & _).
    rewrite E.
    destruct (try_one_call r K H s ses Hs HK HH) as [W _].
    unfold wire in W. injection W as _ W. now apply new_requests_app.
Qed.

(** X6.  When the one call of a single-call method raises (any method
    but [close_connection] and [receive_notifications]), the method
    returns a null result, prints exactly one line that ends with the
    text of the exception, and saves nothing to the response file. *)
Theorem failed_call_gives_null_and_one_line
  (env : Env) (op : Operation) (r : Request) (s : State) (ses : Session) (e : Exn) :
  session (self s) = Some ses ->
  single_request op = Some r ->
  op <> OpReceiveNotifications ->
  op <> OpCloseConnection ->
  reply ses (sent s) r = inl e ->
  exists v pre,
    fst (run env op s) = Returned v
    /\ is_null v = true
    /\ stdout (snd (run env op s)) = (stdout s ++ [(pre ++ exn_msg e)%string])%list
    /\ files (snd (run env op s)) = files s.
Proof.
  intros Hs Hr N1 N2 He.
  destruct (one_call_method env op r s ses Hs Hr N1 N2)
    as (K & H & E & _ & _ & HH & _).
  rewrite E. unfold try_except, bind. rewrite (call_raises _ _ _ _ Hs He).
  destruct (HH e (mkState (self s) (sent s ++ [r]) (stdout s) (files s)))
    as (pre & v & EH & Hv).
  rewrite EH. cbn [fst snd self sent stdout files]. now exists v, pre.
Qed.

(** X7.  When the one call succeeds, the four read methods
    ([retrieve_tx_array_carrier_info], [retrieve_rx_array_carrier_info],
    [get_running_config], [retrieve_ru_states]) return the text of the
    reply unchanged, and the five change methods (subscribe, watchdog
    reset, Call Home, the two deletes) return the reply object, whether
    or not saving the reply to the file worked. *)
Theorem successful_call_hands_back_the_reply
  (env : Env) (op : Operation) (r : Request) (s : State) (ses : Session)
  (xml : string) (v : value) :
  session (self s) = Some ses ->
  single_request op = Some r ->
  reply ses (sent s) r = inr xml ->
  handed_back op xml = Some v ->
  fst (run env op s) = Returned v.
Proof.
  intros Hs Hr Hx Hv.
  assert (N : op <> OpReceiveNotifications /\ op <> OpCloseConnection)
    by (destruct op; try discriminate Hv; split; discriminate).
  destruct (one_call_method env op r s ses Hs Hr (proj1 N) (proj2 N))
    as (K & H & E & HK & HH & _ & Hback).
  rewrite E. destruct (try_one_call r K H s ses Hs HK HH) as [_ F].
  rewrite F, Hx. now apply Hback.
Qed.

(** X8.  [receive_notifications] on a connected client makes one
    [take_notification] call with timeout 10 and never raises.  It
    prints the waiting line; then, for each notification that the
    iteration delivers, in the order delivered, the line announcing it
    followed by one line of [save_to_file], which is the saved line or a
    failure-to-save line; then, when the iteration stops with an
    exception, the failure line.  When the call itself raises, only the
    waiting line and the failure line are printed. *)
Theorem notifications_are_handled_in_order
  (env : Env) (s : State) (ses : Session) :
  session (self s) = Some ses ->
  fst (receive_notifications env s) = Returned PyNone
  /\ new_requests s (snd (receive_notifications env s)) = [TakeNotification 10]
  /\ match notifications ses (sent s) with
     | inl e =>
         stdout (snd (receive_notifications env s))
         = (stdout s
            ++ ["Waiting for notifications...";
                ("Failed to receive notifications: " ++ exn_msg e)%string])%list
     | inr (ns, stop) =>
         exists saved,
           length saved = length ns
           /\ Forall (is_save_line (response_file (self s))) saved
           /\ stdout (snd (receive_notifications env s))
              = (stdout s
                 ++ "Waiting for notifications..."
                    :: notification_lines ns saved
                    ++ match stop with
                       | Some e =>
                           [("Failed to receive notifications: "
                             ++ exn_msg e)%string]
                       | None => []
                       end)%list
     end.
Proof.
  intros Hs. pose proof (receive_notifications_run env s ses Hs) as R.
  destruct (notifications ses (sent s)) as [e|[ns stop]].
  - rewrite R. cbn [fst snd stdout]. repeat split. now apply new_requests_app.
  - destruct R as (saved & fs & Hlen & Hall & E). rewrite E. cbn [fst snd stdout].
    split; [reflexivity|]. split; [now apply new_requests_app|].
    now exists saved.
Qed.

End OneCall.

(** ** How calls compose *)

Section Composition.

Variable env : Env.

(** X9.  A status read that fails does not stop the pair change: when
    the read raises, [retrieve_carrier_status] returns [(None, None)],
    which is not the target state, so [activate_carriers] (respectively
    [deactivate_carriers]) goes on to send the combined edit-config. *)
Theorem failed_status_read_still_sends_change
  (s : State) (ses : Session) (tx rx : string) (e : Exn) :
  session (self s) = Some ses ->
  reply ses (sent s) (Get (Some (status_filter tx rx))) = inl e ->
  fst (retrieve_carrier_status env tx rx s) = Returned (PyTuple PyNone PyNone)
  /\ new_requests s (snd (activate_carriers env tx rx s))
     = [Get (Some (status_filter tx rx));
        EditConfig "running" (activation_payload "ACTIVE" tx rx)]
  /\ new_requests s (snd (deactivate_carriers env tx rx s))
     = [Get (Some (status_filter tx rx));
        EditConfig "running" (activation_payload "INACTIVE" tx rx)].
Proof.
  intros Hs He.
  destruct (activate_carriers_run env s ses tx rx Hs) as (v & out & fs & E & _).
  destruct (deactivate_carriers_run env s ses tx rx Hs) as (v' & out' & fs' & E' & _).
  rewrite E, E'. clear E E'.
  rewrite (retrieve_carrier_status_raises env s ses tx rx e Hs He).
  cbn [fst snd both_are py_eq_str value_eqb andb].
  repeat split; now apply new_requests_app.
Qed.

(** X10.  On a successful status read each reported state is ACTIVE or
    INACTIVE; a carrier whose name tag is missing from the reply is
    reported INACTIVE; and when both name tags occur the two reported
    states are equal. *)
Theorem reported_states
  (s : State) (ses : Session) (tx rx xml : string) :
  session (self s) = Some ses ->
  reply ses (sent s) (Get (Some (status_filter tx rx))) = inr xml ->
  exists a b,
    fst (retrieve_carrier_status env tx rx s) = Returned (PyTuple (PyStr a) (PyStr b))
    /\ (a = "ACTIVE" \/ a = "INACTIVE")
    /\ (b = "ACTIVE" \/ b = "INACTIVE")
    /\ (str_in (name_tag tx) xml = false -> a = "INACTIVE")
    /\ (str_in (name_tag rx) xml = false -> b = "INACTIVE")
    /\ (str_in (name_tag tx) xml = true -> str_in (name_tag rx) xml = true -> a = b).
Proof.
  intros Hs Hr.
  destruct (retrieve_carrier_status_ok env s ses tx rx xml Hs Hr) as (out & fs & E).
  rewrite E. exists (reported tx xml), (reported rx xml). cbn [fst].
  unfold reported.
  destruct (str_in (name_tag tx) xml), (str_in (name_tag rx) xml),
    (str_in (active_tag "ACTIVE") xml); cbn [andb];
    repeat split; auto; discriminate.
Qed.

(** X11.  Carriers that the unit does not list cannot be told from
    inactive ones: when neither name tag occurs in the status reply,
    [deactivate_carriers] stops after the read and returns [None], and
    [activate_carriers] sends the activation all the same. *)
Theorem unlisted_carriers_pass_for_inactive
  (s : State) (ses : Session) (tx rx xml : string) :
  session (self s) = Some ses ->
  reply ses (sent s) (Get (Some (status_filter tx rx))) = inr xml ->
  str_in (name_tag tx) xml = false ->
  str_in (name_tag rx) xml = false ->
  fst (deactivate_carriers env tx rx s) = Returned PyNone
  /\ new_requests s (snd (deactivate_carriers env tx rx s))
     = [Get (Some (status_filter tx rx))]
  /\ new_requests s (snd (activate_carriers env tx rx s))
     = [Get (Some (status_filter tx rx));
        EditConfig "running" (activation_payload "ACTIVE" tx rx)].
Proof.
  intros Hs Hr Htx Hrx.
  destruct (activate_carriers_run env s ses tx rx Hs) as (v & out & fs & E & _).
  destruct (deactivate_carriers_run env s ses tx rx Hs) as (v' & out' & fs' & E' & Hv).
  cbv zeta in Hv. rewrite E, E'. clear E E'.
  destruct (retrieve_carrier_status_ok env s ses tx rx xml Hs Hr) as (o & f & R).
  rewrite R in *. unfold reported in *. rewrite Htx, Hrx in *.
  cbn [fst snd both_are py_eq_str value_eqb andb String.eqb] in *.
  rewrite (Hv eq_refl).
  repeat split; now apply new_requests_app.
Qed.

(** X12.  Creating a carrier twice creates it once, on a unit that lists
    what it was sent: when the first read does not show the name and the
    read that follows the create does, the second
    [configure_tx_array_carrier] stops after its read.  Over the two
    calls the client sends read, create, read, whether or not the create
    itself was accepted. *)
Theorem second_create_is_skipped
  (s : State) (ses : Session) (name before after : string)
  (ccb afc cb gain : scalar) :
  let read := Get (Some tx_carriers_filter) in
  let create := EditConfig "running" (tx_create_payload name ccb afc cb gain) in
  let once := snd (configure_tx_array_carrier env name ccb afc cb gain s) in
  let twice := configure_tx_array_carrier env name ccb afc cb gain once in
  session (self s) = Some ses ->
  reply ses (sent s) read = inr before ->
  str_in (name_tag name) before = false ->
  reply ses (sent s ++ [read; create]) read = inr after ->
  str_in (name_tag name) after = true ->
  fst twice = Returned PyNone
  /\ new_requests s once = [read; create]
  /\ new_requests once (snd twice) = [read]
  /\ new_requests s (snd twice) = [read; create; read].
Proof.
  intros read create once twice Hs Hb Habsent Ha Hpresent.
  destruct (configure_tx_run env s ses name before ccb afc cb gain Hs Hb)
    as (v & st & E & Hsent & _).
  rewrite Habsent in Hsent. fold read create in Hsent.
  assert (Hst : once = st) by (subst once; now rewrite E).
  assert (Hself : self st = self s).
  { rewrite <- Hst. subst once.
    exact (proj1 (run_is_extending env (OpConfigureTx name ccb afc cb gain) s)). }
  assert (Hs' : session (self st) = Some ses) by now rewrite Hself.
  assert (Ha' : reply ses (sent st) read = inr after) by now rewrite Hsent.
  destruct (configure_tx_run env st ses name after ccb afc cb gain Hs' Ha')
    as (v' & st' & E' & Hsent' & Hv).
  rewrite Hpresent in Hsent'. destruct (Hv Hpresent) as [-> _].
  subst twice. rewrite Hst, E'. cbn [fst snd]. fold read in Hsent'.
  repeat split.
  - now apply new_requests_app.
  - now apply new_requests_app.
  - apply new_requests_app. rewrite Hsent', Hsent, <- app_assoc. reflexivity.
Qed.

(** X13.  Activating twice changes the unit once, on a unit that
    reports what it was sent: when the first status read does not show
    both carriers active and the read that follows the edit-config does,
    the second [activate_carriers] stops after its read. *)
Theorem second_activation_is_skipped
  (s : State) (ses : Session) (tx rx before after : string) :
  let read := Get (Some (status_filter tx rx)) in
  let change := EditConfig "running" (activation_payload "ACTIVE" tx rx) in
  let once := snd (activate_carriers env tx rx s) in
  let twice := activate_carriers env tx rx once in
  session (self s) = Some ses ->
  reply ses (sent s) read = inr before ->
  str_in (active_tag "ACTIVE") before = false ->
  reply ses (sent s ++ [read; change]) read = inr after ->
  str_in (name_tag tx) after = true ->
  str_in (name_tag rx) after = true ->
  str_in (active_tag "ACTIVE") after = true ->
  fst twice = Returned PyNone
  /\ new_requests s once = [read; change]
  /\ new_requests once (snd twice) = [read]
  /\ new_requests s (snd twice) = [read; change; read].
Proof.
  intros read change once twice Hs Hb Hoff Ha Htx Hrx Hon.
  destruct (activate_carriers_run env s ses tx rx Hs) as (v & out & fs & E & _).
  destruct (retrieve_carrier_status_ok env s ses tx rx before Hs Hb) as (o & f & R).
  rewrite R in E. unfold reported in E. rewrite Hoff, !andb_false_r in E.
  cbn [fst both_are py_eq_str value_eqb String.eqb Ascii.eqb andb] in E.
  fold read change in E.
  set (st := mkState (self s) (sent s ++ [read; change]) (stdout s ++ out) fs) in E.
  assert (Hst : once = st) by (subst once; now rewrite E).
  assert (Hs' : session (self st) = Some ses) by exact Hs.
  assert (Ha' : reply ses (sent st) read = inr after) by exact Ha.
  destruct (activate_carriers_run env st ses tx rx Hs') as (v' & out' & fs' & E' & Hv).
  destruct (retrieve_carrier_status_ok env st ses tx rx after Hs' Ha') as (o' & f' & R').
  cbv zeta in Hv. rewrite R' in E', Hv. unfold reported in E', Hv.
  rewrite Htx, Hrx, Hon in E', Hv.
  cbn [fst both_are py_eq_str value_eqb String.eqb Ascii.eqb andb] in E', Hv.
  rewrite (Hv eq_refl) in E'. fold read in E'.
  subst twice. rewrite Hst, E'. cbn [fst snd].
  repeat split.
  - now apply new_requests_app.
  - now apply new_requests_app.
  - apply new_requests_app. cbn [sent st]. now rewrite <- app_assoc.
Qed.

Lemma connect_run (s : State) :
  let attempt :=
    manager_connect env (host (self s)) (port (self s))
                    (username (self s)) (password (self s)) in
  connect env s
  = (Returned PyNone,
     mkState (set_session (self s)
                match attempt with inr ses => Some ses | inl _ => None end)
             (sent s)
             (stdout s
              ++ [match attempt with
                  | inr _ => "Successfully connected to RU at " ++ host (self s)
                  | inl e => "Failed to connect to RU: " ++ exn_msg e
                  end])
             (files s)).
Proof.
  intros attempt. subst attempt. unfold connect, try_except, bind at 1, get_self.
  destruct (manager_connect env (host (self s)) (port (self s))
              (username (self s)) (password (self s))) as [e|ses];
    reflexivity.
Qed.

Lemma subscribe_run (s : State) (ses : Session) :
  session (self s) = Some ses ->
  exists v out fs,
    subscribe_to_netconf_notifications env s
    = (Returned v,
       mkState (self s) (sent s ++ [Dispatch subscription_rpc]) (stdout s ++ out) fs).
Proof.
  intros Hs. unfold subscribe_to_netconf_notifications, to_ele, try_except, bind at 1.
  destruct (reply ses (sent s) (Dispatch subscription_rpc)) as [e|xml] eqn:Hr.
  - rewrite (call_raises _ _ _ _ Hs Hr). unfold print, bind, ret.
    cbn [self sent stdout files]. eauto.
  - rewrite (call_ok _ _ _ _ Hs Hr). unfold print at 1, bind at 1.
    cbn [self sent stdout files]. unfold bind at 1. saved_in.
    unfold ret. do 3 eexists. now rewrite <- app_assoc.
Qed.

(** X14.  [connect] never raises and makes no call on the session the
    client may already hold, so an old session is never closed.
    Afterwards [self.session] is the new session when the attempt
    succeeded and [None] when it failed: a connected client whose
    reconnection fails loses its session.  The rest of the client
    object is kept. *)
Theorem connect_replaces_the_session (s : State) :
  let attempt :=
    manager_connect env (host (self s)) (port (self s))
                    (username (self s)) (password (self s)) in
  let s' := snd (connect env s) in
  fst (connect env s) = Returned PyNone
  /\ sent s' = sent s
  /\ files s' = files s
  /\ self s' = set_session (self s)
                 match attempt with inr ses => Some ses | inl _ => None end
  /\ connected s' = match attempt with inr _ => true | inl _ => false end.
Proof.
  intros attempt s'. subst s'. rewrite (connect_run s). fold attempt.
  cbn [fst snd self sent files]. unfold connected, set_session. cbn [session].
  destruct attempt; now repeat split.
Qed.

(** X15.  The script at the end of the file never sends more than two
    calls.  When the connection fails it sends nothing, prints three
    lines and ends normally.  When the connection succeeds it sends the
    subscription and then [close_session], whatever the answer to the
    subscription, and ends normally unless [close_session] raises, in
    which case that exception ends the script. *)
Theorem script_sends_subscription_then_close :
  match manager_connect env "10.1.8.14" 830 "oranbenetel" "aaBB00!$aaBB00!$" with
  | inl e =>
      fst (main env boot) = Returned PyNone
      /\ sent (snd (main env boot)) = []
      /\ stdout (snd (main env boot))
         = ["Failed to connect to RU: " ++ exn_msg e;
            "Failed to subscribe: 'NoneType' object has no attribute 'dispatch'";
            "No active session to close."]
  | inr ses =>
      sent (snd (main env boot)) = [Dispatch subscription_rpc; CloseSession]
      /\ fst (main env boot)
         = match reply ses [Dispatch subscription_rpc] CloseSession with
           | inl e => Raised e
           | inr _ => Returned PyNone
           end
  end.
Proof.
  pose proof (connect_run boot) as C. cbv zeta in C.
  change (host (self boot)) with "10.1.8.14" in C.
  change (port (self boot)) with 830%Z in C.
  change (username (self boot)) with "oranbenetel" in C.
  change (password (self boot)) with "aaBB00!$aaBB00!$" in C.
  destruct (manager_connect env "10.1.8.14" 830 "oranbenetel" "aaBB00!$aaBB00!$")
    as [e|ses].
  - unfold main, bind at 1 3 5. rewrite C. vm_compute. now repeat split.
  - unfold main, bind at 1 3. rewrite C.
    unfold bind at 1 2.
    match goal with
    | |- context [subscribe_to_netconf_notifications env ?st] => set (t := st)
    end.
    assert (Ht : session (self t) = Some ses) by reflexivity.
    destruct (subscribe_run t ses Ht) as (v & out & fs & E).
    rewrite E. subst t. unfold close_connection, connected.
    cbn [self set_session session sent boot app].
    unfold bind at 1 3, call. cbn [self sent set_session session].
    destruct (reply ses [Dispatch subscription_rpc] CloseSession); now split.
Qed.

(** X16.  A create is sent only after a read that shows the name
    missing.  In every state, the edit-config calls made by
    [configure_tx_array_carrier] (respectively
    [configure_rx_array_carrier]) are the one create when a session
    exists, the carrier read returned and the name tag is not in the
    reply, and none at all otherwise: not without a session, not when
    the read raised, not when the name is there. *)
Theorem create_only_after_a_read_without_the_name
  (s : State) (name : string)
  (ccb afc cb gain gain_correction n_ta_offset : scalar) :
  edit_configs
    (new_requests s (snd (configure_tx_array_carrier env name ccb afc cb gain s)))
  = match session (self s) with
    | Some ses =>
        match reply ses (sent s) (Get (Some tx_carriers_filter)) with
        | inr xml =>
            if str_in (name_tag name) xml then []
            else [EditConfig "running" (tx_create_payload name ccb afc cb gain)]
        | inl _ => []
        end
    | None => []
    end
  /\ edit_configs
       (new_requests s
          (snd (configure_rx_array_carrier env name ccb afc cb gain_correction
                  n_ta_offset s)))
     = match session (self s) with
       | Some ses =>
           match reply ses (sent s) (Get (Some rx_carriers_filter)) with
           | inr xml =>
               if str_in (name_tag name) xml then []
               else [EditConfig "running"
                       (rx_create_payload name ccb afc cb gain_correction
                          n_ta_offset)]
           | inl _ => []
           end
       | None => []
       end.
Proof.
  destruct (session (self s)) as [ses|] eqn:Hs.
  - split.
    + destruct (reply ses (sent s) (Get (Some tx_carriers_filter)))
        as [e|xml] eqn:Hr.
      * rewrite (configure_tx_failed_read env s ses name e ccb afc cb gain Hs Hr).
        cbn [snd]. now erewrite new_requests_app by reflexivity.
      * destruct (configure_tx_run env s ses name xml ccb afc cb gain Hs Hr)
          as (v & st & E & Hsent & _).
        rewrite E. cbn [snd]. rewrite (new_requests_app s st _ Hsent).
        now destruct (str_in (name_tag name) xml).
    + destruct (reply ses (sent s) (Get (Some rx_carriers_filter)))
        as [e|xml] eqn:Hr.
      * rewrite (configure_rx_failed_read env s ses name e ccb afc cb gain_correction
                   n_ta_offset Hs Hr).
        cbn [snd]. now erewrite new_requests_app by reflexivity.
      * destruct (configure_rx_run env s ses name xml ccb afc cb gain_correction
                    n_ta_offset Hs Hr)
          as (v & st & E & Hsent & _).
        rewrite E. cbn [snd]. rewrite (new_requests_app s st _ Hsent).
        now destruct (str_in (name_tag name) xml).
  - unfold configure_tx_array_carrier, configure_rx_array_carrier, guarded, connected.
    rewrite Hs. split; now rewrite new_requests_same.
Qed.

End Composition.

(** ** The properties of every method at concrete units *)

Section MoreInstances.

Import Demo.

(** X1 at two clients with the same session, one fresh and saving
    replies, the other with output behind it and a file system on which
    no file can be opened. *)
Lemma logging_is_transparent_witness :
  self on_air = self busy
  /\ sent on_air = sent busy
  /\ stdout on_air <> stdout busy
  /\ OpRetrieveTx <> OpSaveCapabilities
  /\ fst (run libs OpRetrieveTx on_air) = fst (run no_disk OpRetrieveTx busy)
  /\ self (snd (run libs OpRetrieveTx on_air))
     = self (snd (run no_disk OpRetrieveTx busy))
  /\ sent (snd (run libs OpRetrieveTx on_air))
     = sent (snd (run no_disk OpRetrieveTx busy)).
Proof.
  assert (D : stdout on_air <> stdout busy) by discriminate.
  assert (N : OpRetrieveTx <> OpSaveCapabilities) by discriminate.
  destruct (logging_is_transparent libs no_disk OpRetrieveTx on_air busy
              eq_refl eq_refl) as (O & W).
  exact (conj eq_refl (conj eq_refl (conj D (conj N (conj (O N) W))))).
Defined.

(** X3 at a unit on which every call times out. *)
Lemma transport_errors_do_not_escape_witness :
  catches_everything (OpActivateCarriers "A" "B") = true
  /\ exists v, fst (run libs (OpActivateCarriers "A" "B") silent) = Returned v.
Proof.
  exact (conj eq_refl
           (transport_errors_do_not_escape libs (OpActivateCarriers "A" "B") silent
              eq_refl)).
Defined.

(** X4 at a unit on which every call times out: the exception of
    [close_session] reaches the caller. *)
Lemma close_connection_keeps_session_and_can_raise_witness :
  session (self silent) = Some (failing timeout_error)
  /\ new_requests silent (snd (close_connection silent)) = [CloseSession]
  /\ connected (snd (close_connection silent)) = true
  /\ fst (close_connection silent) = Raised timeout_error
  /\ stdout (snd (close_connection silent)) = stdout silent.
Proof.
  exact (conj eq_refl
           (close_connection_keeps_session_and_can_raise silent
              (failing timeout_error) eq_refl)).
Defined.

(** X5 at a unit on which every call times out. *)
Lemma single_call_methods_call_once_witness :
  connected silent = true
  /\ single_request OpGetRunningConfig = Some (GetConfig "running")
  /\ new_requests silent (snd (run libs OpGetRunningConfig silent))
     = [GetConfig "running"].
Proof.
  exact (conj eq_refl (conj eq_refl
           (single_call_methods_call_once libs OpGetRunningConfig
              (GetConfig "running") silent eq_refl eq_refl))).
Defined.

(** X6 at a unit on which every call times out. *)
Lemma failed_call_gives_null_and_one_line_witness :
  session (self silent) = Some (failing timeout_error)
  /\ reply (failing timeout_error) (sent silent) (Get (Some supervision_filter))
     = inl timeout_error
  /\ exists v pre,
       fst (run libs OpCheckSupervisionStatus silent) = Returned v
       /\ is_null v = true
       /\ stdout (snd (run libs OpCheckSupervisionStatus silent))
          = (stdout silent ++ [(pre ++ exn_msg timeout_error)%string])%list
       /\ files (snd (run libs OpCheckSupervisionStatus silent)) = files silent.
Proof.
  assert (N1 : OpCheckSupervisionStatus <> OpReceiveNotifications) by discriminate.
  assert (N2 : OpCheckSupervisionStatus <> OpCloseConnection) by discriminate.
  exact (conj eq_refl (conj eq_refl
           (failed_call_gives_null_and_one_line libs OpCheckSupervisionStatus
              (Get (Some supervision_filter)) silent (failing timeout_error)
              timeout_error eq_refl eq_refl N1 N2 eq_refl))).
Defined.

(** X7 at a unit holding TX carrier A. *)
Lemma successful_call_hands_back_the_reply_witness :
  session (self on_air) = Some (radio both_active)
  /\ reply (radio both_active) (sent on_air) (Get (Some tx_carriers_filter))
     = inr tx_list
  /\ fst (run libs OpRetrieveTx on_air) = Returned (PyStr tx_list).
Proof.
  exact (conj eq_refl (conj eq_refl
           (successful_call_hands_back_the_reply libs OpRetrieveTx
              (Get (Some tx_carriers_filter)) on_air (radio both_active)
              tx_list (PyStr tx_list) eq_refl eq_refl eq_refl eq_refl))).
Defined.

(** X8 at a unit that delivers two notifications and then drops the
    session, once with a working file system and once with none. *)
Lemma notifications_are_handled_in_order_witness :
  session (self listening) = Some notifying
  /\ fst (receive_notifications libs listening) = Returned PyNone
  /\ new_requests listening (snd (receive_notifications libs listening))
     = [TakeNotification 10]
  /\ stdout (snd (receive_notifications libs listening))
     = ["Waiting for notifications...";
        "Received Notification: <notification>1</notification>";
        "Response saved to netconf_responses.xml";
        "Received Notification: <notification>2</notification>";
        "Response saved to netconf_responses.xml";
        "Failed to receive notifications: Unexpected session close"]
  /\ stdout (snd (receive_notifications no_disk listening))
     = ["Waiting for notifications...";
        "Received Notification: <notification>1</notification>";
        "Failed to save XML response: [Errno 2] No such file or directory";
        "Received Notification: <notification>2</notification>";
        "Failed to save XML response: [Errno 2] No such file or directory";
        "Failed to receive notifications: Unexpected session close"].
Proof.
  destruct (notifications_are_handled_in_order libs listening notifying eq_refl)
    as (V & R & _).
  exact (conj eq_refl (conj V (conj R (conj eq_refl eq_refl)))).
Defined.

(** X9 at a unit on which every call times out. *)
Lemma failed_status_read_still_sends_change_witness :
  session (self silent) = Some (failing timeout_error)
  /\ fst (retrieve_carrier_status libs "A" "B" silent)
     = Returned (PyTuple PyNone PyNone)
  /\ new_requests silent (snd (activate_carriers libs "A" "B" silent))
     = [Get (Some (status_filter "A" "B"));
        EditConfig "running" (activation_payload "ACTIVE" "A" "B")]
  /\ new_requests silent (snd (deactivate_carriers libs "A" "B" silent))
     = [Get (Some (status_filter "A" "B"));
        EditConfig "running" (activation_payload "INACTIVE" "A" "B")].
Proof.
  exact (conj eq_refl
           (failed_status_read_still_sends_change libs silent
              (failing timeout_error) "A" "B" timeout_error eq_refl eq_refl)).
Defined.

(** X10 at a unit whose TX carrier is active and RX carrier inactive. *)
Lemma reported_states_witness :
  session (self half_on) = Some (radio tx_only_active)
  /\ exists a b,
       fst (retrieve_carrier_status libs "A" "B" half_on)
       = Returned (PyTuple (PyStr a) (PyStr b))
       /\ (a = "ACTIVE" \/ a = "INACTIVE")
       /\ (b = "ACTIVE" \/ b = "INACTIVE")
       /\ (str_in (name_tag "A") tx_only_active = false -> a = "INACTIVE")
       /\ (str_in (name_tag "B") tx_only_active = false -> b = "INACTIVE")
       /\ (str_in (name_tag "A") tx_only_active = true ->
           str_in (name_tag "B") tx_only_active = true -> a = b).
Proof.
  exact (conj eq_refl
           (reported_states libs half_on (radio tx_only_active) "A" "B"
              tx_only_active eq_refl eq_refl)).
Defined.

(** X11 at a unit with no carriers. *)
Lemma unlisted_carriers_pass_for_inactive_witness :
  session (self bare) = Some (answering no_carriers)
  /\ str_in (name_tag "A") no_carriers = false
  /\ str_in (name_tag "B") no_carriers = false
  /\ fst (deactivate_carriers libs "A" "B" bare) = Returned PyNone
  /\ new_requests bare (snd (deactivate_carriers libs "A" "B" bare))
     = [Get (Some (status_filter "A" "B"))]
  /\ new_requests bare (snd (activate_carriers libs "A" "B" bare))
     = [Get (Some (status_filter "A" "B"));
        EditConfig "running" (activation_payload "ACTIVE" "A" "B")].
Proof.
  assert (A : str_in (name_tag "A") no_carriers = false) by (vm_compute; reflexivity).
  assert (B : str_in (name_tag "B") no_carriers = false) by (vm_compute; reflexivity).
  exact (conj eq_refl (conj A (conj B
           (unlisted_carriers_pass_for_inactive libs bare (answering no_carriers)
              "A" "B" no_carriers eq_refl eq_refl A B)))).
Defined.

(** X12 at a unit that lists carrier A once it has received the create. *)
Lemma second_create_is_skipped_witness :
  session (self empty_unit) = Some creating
  /\ str_in (name_tag "A") no_carriers = false
  /\ str_in (name_tag "A") both_active = true
  /\ new_requests empty_unit
       (snd (configure_tx_array_carrier libs "A" centre arfcn bandwidth gain
               (snd (configure_tx_array_carrier libs "A" centre arfcn bandwidth gain
                       empty_unit))))
     = [Get (Some tx_carriers_filter);
        EditConfig "running" (tx_create_payload "A" centre arfcn bandwidth gain);
        Get (Some tx_carriers_filter)].
Proof.
  assert (A : str_in (name_tag "A") no_carriers = false) by (vm_compute; reflexivity).
  assert (B : str_in (name_tag "A") both_active = true) by (vm_compute; reflexivity).
  assert (R : reply creating
                (sent empty_unit
                 ++ [Get (Some tx_carriers_filter);
                     EditConfig "running"
                       (tx_create_payload "A" centre arfcn bandwidth gain)])
                (Get (Some tx_carriers_filter)) = inr both_active)
    by (vm_compute; reflexivity).
  destruct (second_create_is_skipped libs empty_unit creating "A" no_carriers
              both_active centre arfcn bandwidth gain eq_refl eq_refl A R B)
    as (_ & _ & _ & W).
  exact (conj eq_refl (conj A (conj B W))).
Defined.

(** X13 at a unit that reports both carriers active once it has received
    the activation. *)
Lemma second_activation_is_skipped_witness :
  session (self dark_unit) = Some switching
  /\ str_in (active_tag "ACTIVE") both_inactive = false
  /\ new_requests dark_unit
       (snd (activate_carriers libs "A" "B"
               (snd (activate_carriers libs "A" "B" dark_unit))))
     = [Get (Some (status_filter "A" "B"));
        EditConfig "running" (activation_payload "ACTIVE" "A" "B");
        Get (Some (status_filter "A" "B"))].
Proof.
  assert (O : str_in (active_tag "ACTIVE") both_inactive = false)
    by (vm_compute; reflexivity).
  assert (T : str_in (name_tag "A") both_active = true) by (vm_compute; reflexivity).
  assert (R : str_in (name_tag "B") both_active = true) by (vm_compute; reflexivity).
  assert (N : str_in (active_tag "ACTIVE") both_active = true)
    by (vm_compute; reflexivity).
  assert (Q : reply switching
                (sent dark_unit
                 ++ [Get (Some (status_filter "A" "B"));
                     EditConfig "running" (activation_payload "ACTIVE" "A" "B")])
                (Get (Some (status_filter "A" "B"))) = inr both_active)
    by (vm_compute; reflexivity).
  destruct (second_activation_is_skipped libs dark_unit switching "A" "B"
              both_inactive both_active eq_refl eq_refl O Q T R N)
    as (_ & _ & _ & W).
  exact (conj eq_refl (conj O W)).
Defined.

End MoreInstances.
